(** * Entity selection in the 3D scene

    A shallow embedding of the [SelectEntities] GUI plugin in
    [src/include/gz/sim/components/Material.hh]: its private data class
    [SelectEntitiesPrivate] and the [eventFilter] entry point.

    The plugin is stateful C++ that talks to a rendering scene and to the
    GUI application.  It is embedded as programs of a small state and
    fault monad over the plugin's private data, with the calls that leave
    the plugin (ray queries, events sent to the main window, log lines)
    appended to an effect trace.  A null pointer dereference and an
    uncaught [std::bad_variant_access] end the run.  Events reach
    [eventFilter] one at a time; what the plugin reads from its
    surroundings while it handles one (the scene of the render engine, the
    keyboard modifiers) comes with the event.

    The declaration of the [Material] component at the head of the file
    is two type aliases and an invocation of
    [IGN_GAZEBO_REGISTER_COMPONENT].  The templates [Component] and
    [ComponentToMsgSerializer] and the macro are defined in headers that
    are not part of the source at hand, so there is no function of the
    component to embed and it is left out. *)

From Stdlib Require Import ZArith List Bool Ascii String PrimFloat.
From stdpp Require Import gmap strings list fin_maps.

Set Warnings "-clear-no-such-hyp".

Local Open Scope Z_scope.

(** ** Numeric identifiers *)

(** [Entity] is a 64-bit unsigned integer in the host ([uint64_t]); the ids
    of rendering nodes are [unsigned int] (32 bits), and the user data read
    by the plugin is an [int].  All three are carried by [Z], and the
    conversions the C++ performs implicitly are written out. *)
Abbreviation Entity := Z.

(** [int] to [Entity]: a negative value wraps around modulo 2^64. *)
Definition Entity_of_int (i : Z) : Entity := i mod 2 ^ 64.

(** [Entity] to the [unsigned int] parameter of [Scene::VisualById]. *)
Definition uint_of_Entity (e : Entity) : Z := e mod 2 ^ 32.

(** ** The rendering library, as far as the plugin sees it *)
Module rendering.

(** [std::variant] of the user data attached to a node. *)
Inductive Variant :=
| v_monostate
| v_int (i : Z)
| v_float (x : float)
| v_double (x : float)
| v_string (s : string)
| v_bool (b : bool)
| v_uint (u : Z).

Definition Vector3d : Type := float * float * float.

Record AxisAlignedBox := { Min : Vector3d; Max : Vector3d }.

(** A visual of the scene graph. *)
Record Visual := {
  Id : Z;
  UserData : string → Variant;
  LocalBoundingBox : AxisAlignedBox
}.

Record Camera := { CameraName : string }.

Inductive Sensor :=
| CameraSensor (c : Camera)
| OtherSensor.

Record Material := {
  Ambient : Vector3d;
  Diffuse : Vector3d;
  Specular : Vector3d;
  Emissive : Vector3d
}.

(** The visual that carries a wire box: what [CreateVisual],
    [SetInheritScale], [SetMaterial], [AddChild] and [SetVisible] leave
    on it.  The material is shared with the scene and named here. *)
Record WireBoxVisual := {
  InheritScale : bool;
  VisMaterial : string;
  AttachedTo : Z;
  Visible : bool
}.

Record WireBox := {
  Box : AxisAlignedBox;
  Parent : option WireBoxVisual
}.

Definition Vector2i : Type := Z * Z.

(** A scene: its visuals, the ray query behind [VisualAt] (the id of the
    visual under a screen position, if any), its sensors and its
    materials by name.  The visuals are found by their id, and a ray
    query returns one of them.  The visual that [HighlightNode] creates
    for a wire box is kept with the wire box ([Parent]); it is not among
    the visuals a ray query returns. *)
Record Scene := {
  Visuals : list Visual;
  RayQuery : option Camera → Vector2i → option Z;
  Sensors : list (string * Sensor);
  Materials : gmap string Material
}.

(** [Scene::VisualById]: the first visual registered under the id. *)
Definition VisualById (sc : Scene) (id : Z) : option Visual :=
  find (λ v, Id v =? id) (Visuals sc).

(** [Scene::VisualAt]: the visual of the scene hit by the ray. *)
Definition VisualAt (sc : Scene) (cam : option Camera) (pos : Vector2i)
  : option Visual :=
  match RayQuery sc cam pos with
  | Some id => VisualById sc id
  | None => None
  end.

(** [Scene::SensorByName]. *)
Definition SensorByName (sc : Scene) (name : string) : option Sensor :=
  match find (λ p, String.eqb (fst p) name) (Sensors sc) with
  | Some p => Some (snd p)
  | None => None
  end.

(** [std::dynamic_pointer_cast<rendering::Camera>]. *)
Definition as_Camera (s : option Sensor) : option Camera :=
  match s with
  | Some (CameraSensor c) => Some c
  | _ => None
  end.

Definition SetMaterials (m : gmap string Material) (sc : Scene) : Scene :=
  {| Visuals := Visuals sc; RayQuery := RayQuery sc;
     Sensors := Sensors sc; Materials := m |}.

Definition SetBox (b : AxisAlignedBox) (w : WireBox) : WireBox :=
  {| Box := b; Parent := Parent w |}.

(** [wireBox->Parent()->SetVisible(b)], guarded by [if (visParent)]. *)
Definition SetParentVisible (b : bool) (w : WireBox) : WireBox :=
  match Parent w with
  | Some p =>
      {| Box := Box w;
         Parent := Some {| InheritScale := InheritScale p;
                           VisMaterial := VisMaterial p;
                           AttachedTo := AttachedTo p;
                           Visible := b |} |}
  | None => w
  end.

(** A scene is well typed when the ids of its visuals fit [unsigned int]. *)
Definition Scene_ok (sc : Scene) : bool :=
  forallb (λ v, (0 <=? Id v) && (Id v <? 2 ^ 32)) (Visuals sc).

End rendering.
Export rendering.

(** ** Events *)
Module events.

Record MouseEvent := { Pos : Vector2i }.

(** The events that reach [eventFilter] or are sent by the plugin. *)
Inductive QEvent :=
| LeftClickOnScene (mouse : MouseEvent)
| Render
| TransformControlMode (transformControl : bool)
| EntitiesSelected (entities : list Entity) (fromUser : bool)
| DeselectAllEntities (fromUser : bool)
| OtherEvent (type : Z).

End events.

(** [Qt::ControlModifier]. *)
Definition ControlModifier : Z := 0x04000000.

(** What the plugin reads from its surroundings while it handles one event:
    the scene of the first render engine, and the keyboard modifiers. *)
Record World := {
  sceneFromFirstRenderEngine : option Scene;
  keyboardModifiers : Z
}.

Definition World_ok (w : World) : bool :=
  match sceneFromFirstRenderEngine w with
  | Some sc => Scene_ok sc
  | None => true
  end.

(** Calls that leave the plugin, in the order they are made. *)
Inductive Effect :=
| VisualAtQuery (camera : option Camera) (pos : Vector2i)
| App_sendEvent (e : events.QEvent)
| ignerr (msg : string)
| std_cerr (msg : string).

(** ** The plugin's data *)

Record SelectionHelper := {
  selectEntity : Entity;
  deselectAll : bool;
  sendEvent : bool
}.

Record SelectEntitiesPrivate := {
  selectionHelper : SelectionHelper;
  selectedEntities : list Entity;
  scene : option Scene;
  wireBoxes : gmap Z WireBox;
  mouseEvent : events.MouseEvent;
  mouseDirty : bool;
  camera : option Camera;
  transformControlActive : bool
}.

Definition set_selectionHelper (h : SelectionHelper) (d : SelectEntitiesPrivate) :=
  {| selectionHelper := h; selectedEntities := selectedEntities d;
     scene := scene d; wireBoxes := wireBoxes d; mouseEvent := mouseEvent d;
     mouseDirty := mouseDirty d; camera := camera d;
     transformControlActive := transformControlActive d |}.

Definition set_selectedEntities (l : list Entity) (d : SelectEntitiesPrivate) :=
  {| selectionHelper := selectionHelper d; selectedEntities := l;
     scene := scene d; wireBoxes := wireBoxes d; mouseEvent := mouseEvent d;
     mouseDirty := mouseDirty d; camera := camera d;
     transformControlActive := transformControlActive d |}.

Definition set_scene (sc : option Scene) (d : SelectEntitiesPrivate) :=
  {| selectionHelper := selectionHelper d; selectedEntities := selectedEntities d;
     scene := sc; wireBoxes := wireBoxes d; mouseEvent := mouseEvent d;
     mouseDirty := mouseDirty d; camera := camera d;
     transformControlActive := transformControlActive d |}.

Definition set_wireBoxes (m : gmap Z WireBox) (d : SelectEntitiesPrivate) :=
  {| selectionHelper := selectionHelper d; selectedEntities := selectedEntities d;
     scene := scene d; wireBoxes := m; mouseEvent := mouseEvent d;
     mouseDirty := mouseDirty d; camera := camera d;
     transformControlActive := transformControlActive d |}.

Definition set_mouseEvent (m : events.MouseEvent) (d : SelectEntitiesPrivate) :=
  {| selectionHelper := selectionHelper d; selectedEntities := selectedEntities d;
     scene := scene d; wireBoxes := wireBoxes d; mouseEvent := m;
     mouseDirty := mouseDirty d; camera := camera d;
     transformControlActive := transformControlActive d |}.

Definition set_mouseDirty (b : bool) (d : SelectEntitiesPrivate) :=
  {| selectionHelper := selectionHelper d; selectedEntities := selectedEntities d;
     scene := scene d; wireBoxes := wireBoxes d; mouseEvent := mouseEvent d;
     mouseDirty := b; camera := camera d;
     transformControlActive := transformControlActive d |}.

Definition set_camera (c : option Camera) (d : SelectEntitiesPrivate) :=
  {| selectionHelper := selectionHelper d; selectedEntities := selectedEntities d;
     scene := scene d; wireBoxes := wireBoxes d; mouseEvent := mouseEvent d;
     mouseDirty := mouseDirty d; camera := c;
     transformControlActive := transformControlActive d |}.

Definition set_transformControlActive (b : bool) (d : SelectEntitiesPrivate) :=
  {| selectionHelper := selectionHelper d; selectedEntities := selectedEntities d;
     scene := scene d; wireBoxes := wireBoxes d; mouseEvent := mouseEvent d;
     mouseDirty := mouseDirty d; camera := camera d;
     transformControlActive := b |}.

(** The plugin together with the trace of its effects. *)
Record System := {
  dataPtr : SelectEntitiesPrivate;
  effects : list Effect
}.

(** ** The monad of the member functions *)

Inductive Fault :=
| NullDereference
| bad_variant_access.

Inductive Completion (A : Type) :=
| Normal (a : A) (s : System)
| Faulted (f : Fault).
Arguments Normal {A} a s.
Arguments Faulted {A} f.

Definition M (A : Type) : Type := System → Completion A.

Definition ret {A} (a : A) : M A := λ s, Normal a s.

Definition bind {A B} (c : M A) (k : A → M B) : M B :=
  λ s, match c s with
       | Normal a s' => k a s'
       | Faulted f => Faulted f
       end.

Definition this : M SelectEntitiesPrivate := λ s, Normal (dataPtr s) s.

Definition assign (f : SelectEntitiesPrivate → SelectEntitiesPrivate) : M unit :=
  λ s, Normal tt {| dataPtr := f (dataPtr s); effects := effects s |}.

Definition emit (e : Effect) : M unit :=
  λ s, Normal tt {| dataPtr := dataPtr s; effects := effects s ++ [e] |}.

Definition throw {A} (f : Fault) : M A := λ _, Faulted f.

(** [p->...] on a pointer that may be null. *)
Definition deref {A} (p : option A) : M A :=
  match p with
  | Some a => ret a
  | None => throw NullDereference
  end.

(** [std::get<int>]. *)
Definition std_get_int (v : Variant) : M Z :=
  match v with
  | v_int i => ret i
  | _ => throw bad_variant_access
  end.

Declare Scope prog_scope.
Delimit Scope prog_scope with prog.
Notation "'let*' x ':=' c 'in' k" := (bind c (λ x, k))
  (at level 10, x name, c at level 100, k at level 200) : prog_scope.
Notation "c1 ;; c2" := (bind c1 (λ _, c2))
  (at level 100, c2 at level 200, right associativity) : prog_scope.
Local Open Scope prog_scope.

(** A range-based [for] over a vector. *)
Fixpoint for_each {A} (l : list A) (body : A → M unit) : M unit :=
  match l with
  | [] => ret tt
  | x :: l' => body x ;; for_each l' body
  end.

(** ** The member functions of [SelectEntitiesPrivate] *)
Section SelectEntities.

(** [kNullEntity] is declared in [ignition/gazebo/Entity.hh], which is not
    part of the source at hand: it stays a parameter of the development. *)
Variable kNullEntity : Entity.

(** [SelectionHelper()]: the default member initialisers. *)
Definition SelectionHelper_default : SelectionHelper :=
  {| selectEntity := kNullEntity; deselectAll := false; sendEvent := false |}.

(** [new SelectEntitiesPrivate]. *)
Definition SelectEntitiesPrivate_new : SelectEntitiesPrivate :=
  {| selectionHelper := SelectionHelper_default;
     selectedEntities := [];
     scene := None;
     wireBoxes := ∅;
     mouseEvent := {| events.Pos := (0, 0) |};
     mouseDirty := false;
     camera := None;
     transformControlActive := false |}.

(** The plugin right after its constructor ran. *)
Definition initial : System :=
  {| dataPtr := SelectEntitiesPrivate_new; effects := [] |}.

(** The prologue shared by [LowlightNode], [HighlightNode] and
    [SetSelectedEntity]:
    [Entity entityId = kNullEntity;
     if (_visual) entityId = std::get<int>(_visual->UserData("gazebo-entity"));] *)
Definition entityId_of (_visual : option Visual) : M Entity :=
  match _visual with
  | Some v =>
      let* i := std_get_int (UserData v "gazebo-entity") in
      ret (Entity_of_int i)
  | None => ret kNullEntity
  end.

Definition LowlightNode (_visual : option Visual) : M unit :=
  let* entityId := entityId_of _visual in
  let* d := this in
  match wireBoxes d !! entityId with
  | Some wireBox =>
      assign (set_wireBoxes
                (<[entityId := SetParentVisible false wireBox]> (wireBoxes d)))
  | None => ret tt
  end.

(** The material created by [HighlightNode] when the scene has none named
    ["highlight_material"]. *)
Definition white : Material :=
  {| Ambient := (1, 1, 1)%float; Diffuse := (1, 1, 1)%float;
     Specular := (1, 1, 1)%float; Emissive := (1, 1, 1)%float |}.

(** What [scene->CreateWireBox()], [scene->CreateVisual()],
    [SetInheritScale], [AddGeometry], [SetMaterial] and
    [_visual->AddChild] build is recorded on the new wire box: its
    [Parent] is the child visual made for it, which names the visual it
    hangs on.  The id that the library gives to the child visual is not
    known here, and the child is not entered among the [Visuals] of the
    scene. *)
Definition HighlightNode (_visual : option Visual) : M unit :=
  let* entityId := entityId_of _visual in
  let* d := this in
  match wireBoxes d !! entityId with
  | None =>
      let* sc := deref (scene d) in
      match Materials sc !! "highlight_material"%string with
      | Some _ => ret tt
      | None =>
          assign (set_scene
            (Some (SetMaterials
                     (<["highlight_material"%string := white]> (Materials sc))
                     sc)))
      end ;;
      let* v := deref _visual in
      let wireBoxVis :=
        {| InheritScale := false;
           VisMaterial := "highlight_material";
           AttachedTo := Id v;
           Visible := true |} in
      let wireBox :=
        {| Box := LocalBoundingBox v; Parent := Some wireBoxVis |} in
      let* d := this in
      assign (set_wireBoxes (<[entityId := wireBox]> (wireBoxes d)))
  | Some wireBox =>
      let* v := deref _visual in
      assign (set_wireBoxes
                (<[entityId :=
                     SetParentVisible true (SetBox (LocalBoundingBox v) wireBox)]>
                   (wireBoxes d)))
  end.

Definition SetSelectedEntity (_visual : option Visual) : M unit :=
  let* entityId := entityId_of _visual in
  if entityId =? kNullEntity then ret tt
  else
    let* v := deref _visual in
    let* d := this in
    assign (set_selectedEntities (selectedEntities d ++ [Id v])) ;;
    HighlightNode _visual ;;
    let* d := this in
    emit (App_sendEvent (events.EntitiesSelected (selectedEntities d) true)).

Definition DeselectAllEntities : M unit :=
  let* d := this in
  match scene d with
  | Some sc =>
      for_each (selectedEntities d)
        (λ entity, LowlightNode (VisualById sc (uint_of_Entity entity))) ;;
      assign (set_selectedEntities []) ;;
      emit (App_sendEvent (events.DeselectAllEntities true))
  | None => ret tt
  end.

(** [QGuiApplication::keyboardModifiers() & Qt::ControlModifier]. *)
Definition ControlHeld (w : World) : bool :=
  negb (Z.land (keyboardModifiers w) ControlModifier =? 0).

(** The line written to [std::cerr] by [UpdateSelectedEntity]. *)
Definition cerr_line (active : bool) : string :=
  "transformControlActive " +:+ (if active then "1" else "0")
    +:+ String "010"%char EmptyString.

Definition UpdateSelectedEntity (w : World) (_visual : option Visual)
    (_sendEvent : bool) : M unit :=
  let* d := this in
  emit (std_cerr (cerr_line (transformControlActive d))) ;;
  let* deselectedAll :=
    (if (negb (ControlHeld w)
           && negb (bool_decide (selectedEntities d = [])))
        || transformControlActive d
     then DeselectAllEntities ;; ret true
     else ret false) in
  SetSelectedEntity _visual ;;
  if _sendEvent || deselectedAll
  then
    let* d := this in
    emit (App_sendEvent (events.EntitiesSelected (selectedEntities d) false))
  else ret tt.

Definition HandleEntitySelection (w : World) : M unit :=
  let* d := this in
  if negb (mouseDirty d) then ret tt
  else
    assign (set_mouseDirty false) ;;
    let* sc := deref (scene d) in
    emit (VisualAtQuery (camera d) (events.Pos (mouseEvent d))) ;;
    let visual := VisualAt sc (camera d) (events.Pos (mouseEvent d)) in
    match visual with
    | None => DeselectAllEntities
    | Some v =>
        let* i := std_get_int (UserData v "gazebo-entity") in
        assign (λ d, set_selectionHelper
                       {| selectEntity := Entity_of_int i;
                          deselectAll := deselectAll (selectionHelper d);
                          sendEvent := sendEvent (selectionHelper d) |} d) ;;
        let* d := this in
        if deselectAll (selectionHelper d) then
          DeselectAllEntities ;;
          assign (set_selectionHelper SelectionHelper_default)
        else if negb (selectEntity (selectionHelper d) =? kNullEntity) then
          UpdateSelectedEntity w visual (sendEvent (selectionHelper d)) ;;
          assign (set_selectionHelper SelectionHelper_default)
        else ret tt
    end.

Definition Initialize (w : World) : M unit :=
  let* d := this in
  match scene d with
  | Some _ => ret tt
  | None =>
      assign (set_scene (sceneFromFirstRenderEngine w)) ;;
      match sceneFromFirstRenderEngine w with
      | None => ret tt
      | Some sc =>
          let cam := as_Camera (SensorByName sc "Scene3DCamera") in
          assign (set_camera cam) ;;
          match cam with
          | Some _ => ret tt
          | None => emit (ignerr "Camera is not available")
          end
      end
  end.

(** [SelectEntities::eventFilter]; the result is that of
    [QObject::eventFilter], which lets the event through. *)
Definition eventFilter (w : World) (_event : events.QEvent) : M bool :=
  match _event with
  | events.LeftClickOnScene mouse =>
      assign (set_mouseEvent mouse) ;;
      assign (set_mouseDirty true)
  | events.Render =>
      Initialize w ;;
      HandleEntitySelection w
  | events.TransformControlMode transformControl =>
      assign (set_transformControlActive transformControl)
  | _ => ret tt
  end ;;
  ret false.

(** A session: the events delivered to the filter, each with what the
    plugin could read from its surroundings at that time. *)
Fixpoint run (evs : list (World * events.QEvent)) (s : System)
  : Completion unit :=
  match evs with
  | [] => Normal tt s
  | (w, e) :: evs' =>
      match eventFilter w e s with
      | Normal _ s' => run evs' s'
      | Faulted f => Faulted f
      end
  end.

(** ** Derived notions used by the statements *)

(** The plugin's state with another wire-box map. *)
Definition with_wireBoxes (m : gmap Z WireBox) (s : System) : System :=
  {| dataPtr := set_wireBoxes m (dataPtr s); effects := effects s |}.

(** The plugin's state with another pending selection request. *)
Definition with_selectionHelper (h : SelectionHelper) (s : System) : System :=
  {| dataPtr := set_selectionHelper h (dataPtr s); effects := effects s |}.

(** [m'] is [m] with some parent visuals hidden: the same keys, and each box
    either untouched or passed through [SetParentVisible false]. *)
Definition hides (m m' : gmap Z WireBox) : Prop :=
  ∀ e, m' !! e = m !! e ∨ m' !! e = SetParentVisible false <$> m !! e.

(** The parent visual of a wire box, if it has one, is not visible. *)
Definition box_hidden (wb : WireBox) : Prop :=
  match Parent wb with
  | Some p => Visible p = false
  | None => True
  end.

(** Two scene values that differ at most in their materials. *)
Definition same_graph (sc sc' : Scene) : Prop :=
  Visuals sc' = Visuals sc ∧ RayQuery sc' = RayQuery sc ∧ Sensors sc' = Sensors sc.

(** A visual pointer on which [entityId_of] does not throw: null, or a
    visual that carries an [int] under ["gazebo-entity"]. *)
Definition visual_typed (vis : option Visual) : bool :=
  match vis with
  | Some v =>
      match UserData v "gazebo-entity" with
      | v_int _ => true
      | _ => false
      end
  | None => true
  end.

(** The visual behind a selected identifier, if the scene has one, is so. *)
Definition entity_typed (sc : Scene) (entity : Entity) : bool :=
  visual_typed (VisualById sc (uint_of_Entity entity)).

Definition selection_typed (sc : Scene) (l : list Entity) : bool :=
  forallb (entity_typed sc) l.

(** The simulation entity behind a selected identifier: the way
    [DeselectAllEntities] and [LowlightNode] resolve it, through
    [VisualById] and the visual's user data. *)
Definition entity_of (sc : Scene) (entity : Entity) : option Entity :=
  match VisualById sc (uint_of_Entity entity) with
  | Some v =>
      match UserData v "gazebo-entity" with
      | v_int i => Some (Entity_of_int i)
      | _ => None
      end
  | None => None
  end.

(** The wire boxes of the entities behind the identifiers [l] are hidden
    in [m]. *)
Definition boxes_hidden (sc : Scene) (l : list Entity) (m : gmap Z WireBox)
  : Prop :=
  ∀ entity e wb,
    entity ∈ l → entity_of sc entity = Some e → m !! e = Some wb →
    box_hidden wb.

(** The events of a session come with well-typed scenes. *)
Definition Worlds_ok (evs : list (World * events.QEvent)) : bool :=
  forallb (λ we, World_ok (fst we)) evs.

(** The states the plugin can be in: those a session leads to from the
    freshly constructed plugin. *)
Definition reachable (s : System) : Prop :=
  ∃ evs, Worlds_ok evs = true ∧ run evs initial = Normal tt s.

(** The selection that [UpdateSelectedEntity] starts from is dropped first:
    Control is not held and something is selected, or the transform
    control is active. *)
Definition clears (w : World) (d : SelectEntitiesPrivate) : bool :=
  (negb (ControlHeld w) && negb (bool_decide (selectedEntities d = [])))
  || transformControlActive d.

Definition VisualAt_effect (d : SelectEntitiesPrivate) : Effect :=
  VisualAtQuery (camera d) (events.Pos (mouseEvent d)).

Definition deselect_effect : Effect :=
  App_sendEvent (events.DeselectAllEntities true).

(** What a successful [HandleEntitySelection] does, case by case. *)
Inductive handled (w : World) (s s' : System) : Prop :=
| handled_idle :
    mouseDirty (dataPtr s) = false →
    s' = s →
    handled w s s'
| handled_miss sc m' :
    mouseDirty (dataPtr s) = true →
    scene (dataPtr s) = Some sc →
    VisualAt sc (camera (dataPtr s)) (events.Pos (mouseEvent (dataPtr s))) = None →
    hides (wireBoxes (dataPtr s)) m' →
    boxes_hidden sc (selectedEntities (dataPtr s)) m' →
    dataPtr s' =
      set_selectedEntities []
        (set_wireBoxes m' (set_mouseDirty false (dataPtr s))) →
    effects s' = effects s ++ [VisualAt_effect (dataPtr s); deselect_effect] →
    handled w s s'
| handled_pending sc v i m' :
    mouseDirty (dataPtr s) = true →
    scene (dataPtr s) = Some sc →
    VisualAt sc (camera (dataPtr s)) (events.Pos (mouseEvent (dataPtr s))) = Some v →
    UserData v "gazebo-entity" = v_int i →
    deselectAll (selectionHelper (dataPtr s)) = true →
    hides (wireBoxes (dataPtr s)) m' →
    boxes_hidden sc (selectedEntities (dataPtr s)) m' →
    dataPtr s' =
      set_selectionHelper SelectionHelper_default
        (set_selectedEntities []
           (set_wireBoxes m' (set_mouseDirty false (dataPtr s)))) →
    effects s' = effects s ++ [VisualAt_effect (dataPtr s); deselect_effect] →
    handled w s s'
| handled_null sc v i :
    mouseDirty (dataPtr s) = true →
    scene (dataPtr s) = Some sc →
    VisualAt sc (camera (dataPtr s)) (events.Pos (mouseEvent (dataPtr s))) = Some v →
    UserData v "gazebo-entity" = v_int i →
    deselectAll (selectionHelper (dataPtr s)) = false →
    Entity_of_int i = kNullEntity →
    dataPtr s' =
      set_selectionHelper
        {| selectEntity := Entity_of_int i;
           deselectAll := false;
           sendEvent := sendEvent (selectionHelper (dataPtr s)) |}
        (set_mouseDirty false (dataPtr s)) →
    effects s' = effects s ++ [VisualAt_effect (dataPtr s)] →
    handled w s s'
| handled_select sc v i m1 wbx sc' :
    mouseDirty (dataPtr s) = true →
    scene (dataPtr s) = Some sc →
    VisualAt sc (camera (dataPtr s)) (events.Pos (mouseEvent (dataPtr s))) = Some v →
    UserData v "gazebo-entity" = v_int i →
    deselectAll (selectionHelper (dataPtr s)) = false →
    Entity_of_int i ≠ kNullEntity →
    (if clears w (dataPtr s) then hides (wireBoxes (dataPtr s)) m1
     else m1 = wireBoxes (dataPtr s)) →
    same_graph sc sc' →
    dataPtr s' =
      set_selectionHelper SelectionHelper_default
        (set_selectedEntities
           ((if clears w (dataPtr s) then [] else selectedEntities (dataPtr s))
              ++ [Id v])
           (set_wireBoxes (<[Entity_of_int i := wbx]> m1)
              (set_scene (Some sc') (set_mouseDirty false (dataPtr s))))) →
    effects s' =
      effects s
        ++ [VisualAt_effect (dataPtr s);
            std_cerr (cerr_line (transformControlActive (dataPtr s)))]
        ++ (if clears w (dataPtr s) then [deselect_effect] else [])
        ++ [App_sendEvent
              (events.EntitiesSelected
                 ((if clears w (dataPtr s) then []
                   else selectedEntities (dataPtr s)) ++ [Id v]) true)]
        ++ (if sendEvent (selectionHelper (dataPtr s)) || clears w (dataPtr s)
            then [App_sendEvent
                    (events.EntitiesSelected
                       ((if clears w (dataPtr s) then []
                         else selectedEntities (dataPtr s)) ++ [Id v]) false)]
            else []) →
    handled w s s'.

(** Why [HandleEntitySelection] does not return. *)
Definition faulty (s : System) (f : Fault) : Prop :=
  mouseDirty (dataPtr s) = true ∧
  match scene (dataPtr s) with
  | None => f = NullDereference
  | Some sc =>
      f = bad_variant_access ∧
      (selection_typed sc (selectedEntities (dataPtr s)) = false ∨
       visual_typed (VisualAt sc (camera (dataPtr s))
                       (events.Pos (mouseEvent (dataPtr s)))) = false)
  end.

(** What [Initialize] leaves: the selection state untouched, and a scene
    looked up only while the plugin has none. *)
Definition initialized (w : World) (s s1 : System) : Prop :=
  selectionHelper (dataPtr s1) = selectionHelper (dataPtr s) ∧
  selectedEntities (dataPtr s1) = selectedEntities (dataPtr s) ∧
  wireBoxes (dataPtr s1) = wireBoxes (dataPtr s) ∧
  mouseEvent (dataPtr s1) = mouseEvent (dataPtr s) ∧
  mouseDirty (dataPtr s1) = mouseDirty (dataPtr s) ∧
  transformControlActive (dataPtr s1) = transformControlActive (dataPtr s) ∧
  match scene (dataPtr s) with
  | Some _ => s1 = s
  | None =>
      scene (dataPtr s1) = sceneFromFirstRenderEngine w ∧
      (effects s1 = effects s ∨
       effects s1 = effects s ++ [ignerr "Camera is not available"])
  end.

(** The entities that are selected in a state. *)
Definition selected_now (s : System) : gset Z :=
  match scene (dataPtr s) with
  | Some sc => list_to_set (omap (entity_of sc) (selectedEntities (dataPtr s)))
  | None => ∅
  end.

(** The entities that were selected at some point of the session [evs]
    started in [s], its first and last states included. *)
Fixpoint ever_selected (evs : list (World * events.QEvent)) (s : System)
  : gset Z :=
  selected_now s ∪
  match evs with
  | [] => ∅
  | (w, e) :: evs' =>
      match eventFilter w e s with
      | Normal _ s' => ever_selected evs' s'
      | Faulted _ => ∅
      end
  end.

(** A selected identifier in good standing: the scene resolves it to a
    visual with a non-null entity, and that entity has its wire box. *)
Definition selected_ok (sc : Scene) (m : gmap Z WireBox) (entity : Entity)
  : Prop :=
  ∃ v i, VisualById sc (uint_of_Entity entity) = Some v ∧
         UserData v "gazebo-entity" = v_int i ∧
         Entity_of_int i ≠ kNullEntity ∧
         is_Some (m !! Entity_of_int i).

(** The invariant of the reachable states. *)
Definition state_ok (s : System) : Prop :=
  deselectAll (selectionHelper (dataPtr s)) = false ∧
  match scene (dataPtr s) with
  | Some sc =>
      Scene_ok sc = true ∧
      Forall (selected_ok sc (wireBoxes (dataPtr s)))
             (selectedEntities (dataPtr s))
  | None => selectedEntities (dataPtr s) = [] ∧ wireBoxes (dataPtr s) = ∅
  end.

(** A pending click that a render pass would add to the selection although
    the visual it hits is selected already: Control is held and the
    transform control is inactive. *)
Definition reselects (w : World) (s : System) : bool :=
  mouseDirty (dataPtr s) && negb (clears w (dataPtr s)) &&
  match scene (dataPtr s) with
  | Some sc =>
      match VisualAt sc (camera (dataPtr s))
                     (events.Pos (mouseEvent (dataPtr s))) with
      | Some v => bool_decide (Id v ∈ selectedEntities (dataPtr s))
      | None => false
      end
  | None => false
  end.

Definition is_Render (e : events.QEvent) : bool :=
  match e with
  | events.Render => true
  | _ => false
  end.

Definition is_LeftClickOnScene (e : events.QEvent) : bool :=
  match e with
  | events.LeftClickOnScene _ => true
  | _ => false
  end.

(** No render pass of the session [evs] started in [s] re-selects. *)
Fixpoint no_reselection (evs : list (World * events.QEvent)) (s : System)
  : bool :=
  match evs with
  | [] => true
  | (w, e) :: evs' =>
      negb (is_Render e && reselects w s) &&
      match eventFilter w e s with
      | Normal _ s' => no_reselection evs' s'
      | Faulted _ => true
      end
  end.

Definition is_VisualAtQuery (e : Effect) : bool :=
  match e with
  | VisualAtQuery _ _ => true
  | _ => false
  end.

Definition is_App_sendEvent (e : Effect) : bool :=
  match e with
  | App_sendEvent _ => true
  | _ => false
  end.

(** The number of ray queries in an effect trace. *)
Definition ray_queries (l : list Effect) : nat :=
  length (List.filter is_VisualAtQuery l).

(** The number of events sent in an effect trace. *)
Definition events_sent (l : list Effect) : nat :=
  length (List.filter is_App_sendEvent l).

(** The number of left clicks delivered in a session. *)
Definition clicks (evs : list (World * events.QEvent)) : nat :=
  length (List.filter (λ we, is_LeftClickOnScene (snd we)) evs).

(** One more click is waiting to be handled. *)
Definition pending (s : System) : nat :=
  if mouseDirty (dataPtr s) then 1%nat else 0%nat.

(** The state a session ends in (the starting state if it faults). *)
Definition final_state (evs : list (World * events.QEvent)) : System :=
  match run evs initial with
  | Normal _ s => s
  | Faulted _ => initial
  end.

(** ** A small scene to run the plugin on *)

Definition unit_box : AxisAlignedBox :=
  {| Min := (0, 0, 0)%float; Max := (1, 1, 1)%float |}.

(** User data with an [int] under ["gazebo-entity"] and nothing else. *)
Definition gazebo_entity (i : Z) : string → Variant :=
  λ key, if String.eqb key "gazebo-entity" then v_int i else v_monostate.

(** Two visuals: rendering ids 7 and 8, simulation entities 3 and 4. *)
Definition visA : Visual :=
  {| Id := 7; UserData := gazebo_entity 3; LocalBoundingBox := unit_box |}.

Definition visB : Visual :=
  {| Id := 8; UserData := gazebo_entity 4; LocalBoundingBox := unit_box |}.

Definition user_camera : Camera := {| CameraName := "Scene3DCamera" |}.

(** A click at x = 1 hits [visA], at x = 2 [visB], elsewhere nothing. *)
Definition two_boxes : Scene :=
  {| Visuals := [visA; visB];
     RayQuery := λ _ pos,
       if fst pos =? 1 then Some 7 else if fst pos =? 2 then Some 8 else None;
     Sensors := [("Scene3DCamera"%string, CameraSensor user_camera)];
     Materials := ∅ |}.

Definition no_engine : World :=
  {| sceneFromFirstRenderEngine := None; keyboardModifiers := 0 |}.

Definition plain : World :=
  {| sceneFromFirstRenderEngine := Some two_boxes; keyboardModifiers := 0 |}.

Definition with_control : World :=
  {| sceneFromFirstRenderEngine := Some two_boxes;
     keyboardModifiers := ControlModifier |}.

Definition click_at (x : Z) : events.QEvent :=
  events.LeftClickOnScene {| events.Pos := (x, 0) |}.

(** Control-click [visA], render, Control-click [visA] again, render. *)
Definition ctrl_click_twice : list (World * events.QEvent) :=
  [(with_control, click_at 1); (with_control, events.Render);
   (with_control, click_at 1); (with_control, events.Render)].

(** Control-click [visA], render, Control-click [visB], render. *)
Definition ctrl_click_both : list (World * events.QEvent) :=
  [(with_control, click_at 1); (with_control, events.Render);
   (with_control, click_at 2); (with_control, events.Render)].

(** Click [visA] and render. *)
Definition click_visA : list (World * events.QEvent) :=
  [(plain, click_at 1); (plain, events.Render)].

(** [visA] selected, then a click on empty space waits to be handled. *)
Definition click_visA_then_nothing : list (World * events.QEvent) :=
  click_visA ++ [(plain, click_at 0)].

(** The transform control is switched on, [visA] is selected, and a
    Control-click on [visB] waits to be handled. *)
Definition transform_then_clicks : list (World * events.QEvent) :=
  [(plain, events.TransformControlMode true);
   (with_control, click_at 1); (with_control, events.Render);
   (with_control, click_at 2)].

(** A click before any render engine has a scene, then a render pass. *)
Definition click_without_scene : list (World * events.QEvent) :=
  [(no_engine, click_at 1); (no_engine, events.Render)].

(** [two_boxes] once [HighlightNode] has created its material. *)
Definition two_boxes_highlighted : Scene :=
  SetMaterials (<["highlight_material"%string := white]> (Materials two_boxes))
    two_boxes.

(** A state without a scene in which two identifiers are selected. *)
Definition selected_without_scene : System :=
  {| dataPtr := set_selectedEntities [7; 8] SelectEntitiesPrivate_new;
     effects := [] |}.

(** A pending request to deselect everything. *)
Definition deselect_request : SelectionHelper :=
  {| selectEntity := 5; deselectAll := true; sendEvent := false |}.

(** A visual without user data (a grid, a gizmo): a click at x = 3 hits it. *)
Definition visGrid : Visual :=
  {| Id := 9; UserData := λ _, v_monostate; LocalBoundingBox := unit_box |}.

Definition boxes_and_grid : Scene :=
  {| Visuals := [visA; visB; visGrid];
     RayQuery := λ _ pos,
       if fst pos =? 1 then Some 7
       else if fst pos =? 2 then Some 8
       else if fst pos =? 3 then Some 9
       else None;
     Sensors := [("Scene3DCamera"%string, CameraSensor user_camera)];
     Materials := ∅ |}.

Definition click_grid : list (World * events.QEvent) :=
  [({| sceneFromFirstRenderEngine := Some boxes_and_grid;
       keyboardModifiers := 0 |}, click_at 3);
   ({| sceneFromFirstRenderEngine := Some boxes_and_grid;
       keyboardModifiers := 0 |}, events.Render)].

(** ** Further derived notions *)

(** The wire box that [HighlightNode] leaves for a visual: the box found
    under the entity, resized and shown again, or a new one on a new
    visible child of the visual. *)
Definition highlighted_box (v : Visual) (found : option WireBox) : WireBox :=
  match found with
  | Some wireBox =>
      SetParentVisible true (SetBox (LocalBoundingBox v) wireBox)
  | None =>
      {| Box := LocalBoundingBox v;
         Parent := Some {| InheritScale := false;
                           VisMaterial := "highlight_material";
                           AttachedTo := Id v;
                           Visible := true |} |}
  end.

(** What a pass of the plugin may do to the materials of the scene: nothing,
    or add the white ["highlight_material"] where there was none. *)
Definition materials_step (m m' : gmap string Material) : Prop :=
  m' = m ∨
  (m !! "highlight_material"%string = None ∧
   m' = <["highlight_material"%string := white]> m).

(** The scene and the camera that a render pass works with: those the
    plugin has, or those [Initialize] gets when the plugin has no scene. *)
Definition scene_in_use (w : World) (s : System) : option Scene :=
  match scene (dataPtr s) with
  | Some sc => Some sc
  | None => sceneFromFirstRenderEngine w
  end.

Definition camera_in_use (w : World) (s : System) : option Camera :=
  match scene (dataPtr s), sceneFromFirstRenderEngine w with
  | None, Some sc => as_Camera (SensorByName sc "Scene3DCamera")
  | _, _ => camera (dataPtr s)
  end.

(** Two sessions deliver the same events under the same keyboard
    modifiers; the scenes that the render engine offers may differ. *)
Definition same_events (evs evs' : list (World * events.QEvent)) : Prop :=
  Forall2 (λ we we', snd we = snd we' ∧
                     keyboardModifiers (fst we) = keyboardModifiers (fst we'))
          evs evs'.

(** The event most recently sent to the main window, if any. *)
Fixpoint last_sent (l : list Effect) : option events.QEvent :=
  match l with
  | [] => None
  | eff :: l' =>
      match last_sent l' with
      | Some e => Some e
      | None =>
          match eff with
          | App_sendEvent e => Some e
          | _ => None
          end
      end
  end.

(** The selection as the other widgets know it from the last event. *)
Definition announced_selection (l : list Effect) : list Entity :=
  match last_sent l with
  | Some (events.EntitiesSelected entities _) => entities
  | _ => []
  end.

(** What the plugin sends to the main window: [EntitiesSelected] with a
    list that is not empty, and [DeselectAllEntities] with [fromUser] set.
    The other effects are not events. *)
Definition selection_event (eff : Effect) : Prop :=
  match eff with
  | App_sendEvent (events.EntitiesSelected entities _) => entities ≠ []
  | App_sendEvent (events.DeselectAllEntities fromUser) => fromUser = true
  | App_sendEvent _ => False
  | _ => True
  end.

Definition is_ignerr (e : Effect) : bool :=
  match e with
  | ignerr _ => true
  | _ => false
  end.

(** The number of error lines in an effect trace. *)
Definition errors_logged (l : list Effect) : nat :=
  length (List.filter is_ignerr l).

(** The wire boxes mirror the selection: each one sits on a child visual
    with the highlight material that does not inherit the scale, and that
    child is visible exactly when the entity is selected. *)
Definition boxes_mirror_selection (s : System) : Prop :=
  ∀ e wb,
    wireBoxes (dataPtr s) !! e = Some wb →
    ∃ p, Parent wb = Some p ∧
         InheritScale p = false ∧
         VisMaterial p = "highlight_material"%string ∧
         (Visible p = true ↔ e ∈ selected_now s).

(** The position of the last left click of a session, if any. *)
Fixpoint last_click (evs : list (World * events.QEvent))
  : option events.MouseEvent :=
  match evs with
  | [] => None
  | (_, e) :: evs' =>
      match last_click evs' with
      | Some m => Some m
      | None =>
          match e with
          | events.LeftClickOnScene m => Some m
          | _ => None
          end
      end
  end.

(** The last transform-control mode of a session, if any. *)
Fixpoint last_mode (evs : list (World * events.QEvent)) : option bool :=
  match evs with
  | [] => None
  | (_, e) :: evs' =>
      match last_mode evs' with
      | Some b => Some b
      | None =>
          match e with
          | events.TransformControlMode b => Some b
          | _ => None
          end
      end
  end.

(** No render pass in a session. *)
Definition no_Render (evs : list (World * events.QEvent)) : bool :=
  forallb (λ we, negb (is_Render (snd we))) evs.

(** [Initialize] finds a scene without a camera named ["Scene3DCamera"]. *)
Definition camera_missing (w : World) (s : System) : bool :=
  match scene (dataPtr s), sceneFromFirstRenderEngine w with
  | None, Some sc =>
      match as_Camera (SensorByName sc "Scene3DCamera") with
      | Some _ => false
      | None => true
      end
  | _, _ => false
  end.

(** The number of error lines that the pointers account for. *)
Definition camera_errors_due (s : System) : nat :=
  match scene (dataPtr s), camera (dataPtr s) with
  | Some _, None => 1%nat
  | _, _ => 0%nat
  end.

(** ** More scenes and sessions to run the plugin on *)

(** [two_boxes] without its camera sensor. *)
Definition two_boxes_no_camera : Scene :=
  {| Visuals := Visuals two_boxes;
     RayQuery := RayQuery two_boxes;
     Sensors := [];
     Materials := ∅ |}.

Definition without_camera : World :=
  {| sceneFromFirstRenderEngine := Some two_boxes_no_camera;
     keyboardModifiers := 0 |}.

(** A first render pass finds the scene and no camera. *)
Definition render_without_camera : list (World * events.QEvent) :=
  [(without_camera, events.Render)].

(** Then [visA] is clicked and a second pass handles the click. *)
Definition then_click_visA : list (World * events.QEvent) :=
  [(without_camera, click_at 1); (without_camera, events.Render)].

(** [visA] is selected with Control held and a click on [visB] waits. *)
Definition ctrl_click_visA_then_visB : list (World * events.QEvent) :=
  [(with_control, click_at 1); (with_control, events.Render);
   (with_control, click_at 2)].

(** [visA] is selected and a click on [visB] waits. *)
Definition click_visA_then_visB : list (World * events.QEvent) :=
  click_visA ++ [(plain, click_at 2)].

Definition grid_world : World :=
  {| sceneFromFirstRenderEngine := Some boxes_and_grid;
     keyboardModifiers := 0 |}.

(** The scene with the grid is at hand and a click on the grid waits. *)
Definition click_grid_pending : list (World * events.QEvent) :=
  [(grid_world, events.Render); (grid_world, click_at 3)].

(** A visual that carries the null entity of the host. *)
Definition visOrigin : Visual :=
  {| Id := 10; UserData := gazebo_entity 0; LocalBoundingBox := unit_box |}.

Definition boxes_and_origin : Scene :=
  {| Visuals := [visA; visB; visOrigin];
     RayQuery := λ _ pos,
       if fst pos =? 1 then Some 7
       else if fst pos =? 2 then Some 8
       else if fst pos =? 4 then Some 10
       else None;
     Sensors := [("Scene3DCamera"%string, CameraSensor user_camera)];
     Materials := ∅ |}.

Definition origin_world : World :=
  {| sceneFromFirstRenderEngine := Some boxes_and_origin;
     keyboardModifiers := 0 |}.

(** [visA] is selected and a click on [visOrigin] waits. *)
Definition click_origin_pending : list (World * events.QEvent) :=
  [(origin_world, click_at 1); (origin_world, events.Render);
   (origin_world, click_at 4)].

(** [boxes_and_origin] once [HighlightNode] has created its material. *)
Definition boxes_and_origin_highlighted : Scene :=
  SetMaterials
    (<["highlight_material"%string := white]> (Materials boxes_and_origin))
    boxes_and_origin.

(** Two clicks and a change of mode, and no render pass. *)
Definition clicks_without_render : list (World * events.QEvent) :=
  [(plain, click_at 1); (plain, events.TransformControlMode true);
   (plain, click_at 2)].

(** A click waits while no render engine has a scene. *)
Definition click_pending_without_scene : list (World * events.QEvent) :=
  [(no_engine, click_at 1)].

(** [w'] is the wire box [w] later in a session: still on the same child
    visual of the same visual, whatever its size and visibility. *)
Definition same_attachment (w w' : WireBox) : Prop :=
  match Parent w with
  | Some p =>
      ∃ p', Parent w' = Some p' ∧
            AttachedTo p' = AttachedTo p ∧
            InheritScale p' = InheritScale p ∧
            VisMaterial p' = VisMaterial p
  | None => Parent w' = None
  end.

(** Every box of [m] is still in [m'], on the same visual. *)
Definition boxes_kept (m m' : gmap Z WireBox) : Prop :=
  ∀ e w, m !! e = Some w → ∃ w', m' !! e = Some w' ∧ same_attachment w w'.

(** ** The wire boxes under [LowlightNode] *)

Lemma with_wireBoxes_same s : with_wireBoxes (wireBoxes (dataPtr s)) s = s.
Proof. destruct s as [[] ?]; reflexivity. Qed.

Lemma hides_refl m : hides m m.
Proof. intros e; by left. Qed.

Lemma SetParentVisible_idem b w :
  SetParentVisible b (SetParentVisible b w) = SetParentVisible b w.
Proof. destruct w as [bx [p|]]; reflexivity. Qed.

Lemma hides_trans m1 m2 m3 : hides m1 m2 → hides m2 m3 → hides m1 m3.
Proof.
  intros H12 H23 e. destruct (H23 e) as [-> | ->], (H12 e) as [-> | ->]; auto.
  right. destruct (m1 !! e); simpl; [|done]. by rewrite SetParentVisible_idem.
Qed.

Lemma hides_dom m m' : hides m m' → dom m' = dom m.
Proof.
  intros H. apply set_eq; intros e. rewrite !elem_of_dom.
  destruct (H e) as [-> | ->]; [done|]. by rewrite fmap_is_Some.
Qed.

Lemma hides_insert m e w :
  m !! e = Some w → hides m (<[e := SetParentVisible false w]> m).
Proof.
  intros He e'. destruct (decide (e = e')) as [<- | Hne].
  - right. by rewrite lookup_insert_eq, He.
  - left. by rewrite lookup_insert_ne.
Qed.

Ltac exec :=
  cbv beta iota delta
    [bind ret this assign emit throw deref std_get_int entityId_of];
  cbn [dataPtr effects with_wireBoxes with_selectionHelper
       selectionHelper selectedEntities scene wireBoxes mouseEvent mouseDirty
       camera transformControlActive selectEntity deselectAll sendEvent
       set_selectionHelper set_selectedEntities set_scene set_wireBoxes
       set_mouseEvent set_mouseDirty set_camera set_transformControlActive].

Ltac exec_bool := cbn [negb andb orb].

Ltac exec_in H :=
  cbn [dataPtr effects with_wireBoxes with_selectionHelper
       selectionHelper selectedEntities scene wireBoxes mouseEvent mouseDirty
       camera transformControlActive selectEntity deselectAll sendEvent
       set_selectionHelper set_selectedEntities set_scene set_wireBoxes
       set_mouseEvent set_mouseDirty set_camera set_transformControlActive]
    in H.

Ltac exec_all :=
  cbn [dataPtr effects with_wireBoxes with_selectionHelper
       selectionHelper selectedEntities scene wireBoxes mouseEvent mouseDirty
       camera transformControlActive selectEntity deselectAll sendEvent
       set_selectionHelper set_selectedEntities set_scene set_wireBoxes
       set_mouseEvent set_mouseDirty set_camera set_transformControlActive]
    in *.

Lemma LowlightNode_spec (vis : option Visual) (s : System) :
  match LowlightNode vis s with
  | Normal _ s' =>
      visual_typed vis = true ∧
      ∃ m', s' = with_wireBoxes m' s ∧ hides (wireBoxes (dataPtr s)) m'
  | Faulted f => f = bad_variant_access ∧ visual_typed vis = false
  end.
Proof.
  unfold LowlightNode, visual_typed. destruct vis as [v|]; exec.
  - destruct (UserData v "gazebo-entity") eqn:Hu; exec; try done.
    destruct (wireBoxes (dataPtr s) !! Entity_of_int i) eqn:Hw; exec;
      (split; [done|]).
    + eexists; split; [reflexivity|]. by apply hides_insert.
    + exists (wireBoxes (dataPtr s)).
      rewrite with_wireBoxes_same. split; [done|apply hides_refl].
  - destruct (wireBoxes (dataPtr s) !! kNullEntity) eqn:Hw; exec;
      (split; [done|]).
    + eexists; split; [reflexivity|]. by apply hides_insert.
    + exists (wireBoxes (dataPtr s)).
      rewrite with_wireBoxes_same. split; [done|apply hides_refl].
Qed.

(** The loop of [DeselectAllEntities]. *)
Lemma lowlight_loop_spec (sc : Scene) (l : list Entity) (s : System) :
  match for_each l
          (λ entity, LowlightNode (VisualById sc (uint_of_Entity entity))) s with
  | Normal _ s' =>
      selection_typed sc l = true ∧
      ∃ m', s' = with_wireBoxes m' s ∧ hides (wireBoxes (dataPtr s)) m'
  | Faulted f => f = bad_variant_access ∧ selection_typed sc l = false
  end.
Proof.
  revert s. induction l as [|entity l IH]; intros s; simpl.
  - split; [done|]. exists (wireBoxes (dataPtr s)).
    rewrite with_wireBoxes_same. split; [done|apply hides_refl].
  - unfold bind at 1. unfold entity_typed at 1 2.
    pose proof (LowlightNode_spec (VisualById sc (uint_of_Entity entity)) s) as HL.
    destruct (LowlightNode (VisualById sc (uint_of_Entity entity)) s) as [[] s1|f].
    + destruct HL as (-> & m1 & -> & Hm1). simpl.
      specialize (IH (with_wireBoxes m1 s)).
      destruct (for_each l _ (with_wireBoxes m1 s)) as [[] s2|f]; [|done].
      destruct IH as (-> & m2 & -> & Hm2). split; [done|].
      exists m2. split; [done|]. by eapply hides_trans.
    + destruct HL as (-> & ->). done.
Qed.

Lemma SetParentVisible_hidden w : box_hidden (SetParentVisible false w).
Proof. unfold box_hidden. by destruct w as [bx [p|]]. Qed.

Lemma hides_hidden m m' e w' :
  hides m m' →
  (∀ w, m !! e = Some w → box_hidden w) →
  m' !! e = Some w' → box_hidden w'.
Proof.
  intros H Hm Hw'. destruct (H e) as [He | He]; rewrite He in Hw'.
  - by apply Hm.
  - destruct (m !! e); [|done]. injection Hw' as <-.
    apply SetParentVisible_hidden.
Qed.

Lemma LowlightNode_hidden (v : Visual) (i : Z) (s s' : System) :
  UserData v "gazebo-entity" = v_int i →
  LowlightNode (Some v) s = Normal tt s' →
  ∀ w, wireBoxes (dataPtr s') !! Entity_of_int i = Some w → box_hidden w.
Proof.
  intros Hu. unfold LowlightNode. exec. rewrite Hu. exec.
  destruct (wireBoxes (dataPtr s) !! Entity_of_int i) as [w0|] eqn:Hw; exec;
    intros [= <-] w; exec.
  - rewrite lookup_insert_eq. intros [= <-]. apply SetParentVisible_hidden.
  - by rewrite Hw.
Qed.

(** After the loop, the boxes of the entities it went through are
    hidden. *)
Lemma lowlight_loop_hidden (sc : Scene) (l : list Entity) (s s' : System) :
  for_each l
    (λ entity, LowlightNode (VisualById sc (uint_of_Entity entity))) s
  = Normal tt s' →
  boxes_hidden sc l (wireBoxes (dataPtr s')).
Proof.
  revert s. induction l as [|x l IH]; intros s Hrun entity e wb Hin He Hwb.
  { by apply elem_of_nil in Hin. }
  simpl in Hrun. unfold bind at 1 in Hrun.
  destruct (LowlightNode (VisualById sc (uint_of_Entity x)) s)
    as [[] s1|f] eqn:HL; [|done].
  apply elem_of_cons in Hin as [-> | Hin]; [|by eapply IH].
  pose proof (lowlight_loop_spec sc l s1) as Hloop. rewrite Hrun in Hloop.
  destruct Hloop as (_ & m' & -> & Hm'). exec_in Hwb.
  eapply hides_hidden; [exact Hm'| |exact Hwb].
  unfold entity_of in He.
  destruct (VisualById sc (uint_of_Entity x)) as [v|]; [|done].
  destruct (UserData v "gazebo-entity") eqn:Hu; try done.
  injection He as <-. by eapply LowlightNode_hidden.
Qed.

(** [DeselectAllEntities] on a scene: the boxes of the selection are
    hidden, the list is emptied and the event is sent; it throws exactly
    when a selected identifier leads to a visual without an [int]. *)
Lemma DeselectAllEntities_spec (s : System) (sc : Scene) :
  scene (dataPtr s) = Some sc →
  match DeselectAllEntities s with
  | Normal _ s' =>
      selection_typed sc (selectedEntities (dataPtr s)) = true ∧
      ∃ m', hides (wireBoxes (dataPtr s)) m' ∧
            boxes_hidden sc (selectedEntities (dataPtr s)) m' ∧
            s' = {| dataPtr := set_selectedEntities []
                                 (set_wireBoxes m' (dataPtr s));
                    effects := effects s ++ [deselect_effect] |}
  | Faulted f =>
      f = bad_variant_access ∧
      selection_typed sc (selectedEntities (dataPtr s)) = false
  end.
Proof.
  intros Hsc. unfold DeselectAllEntities. exec. rewrite Hsc. exec.
  pose proof (lowlight_loop_spec sc (selectedEntities (dataPtr s)) s) as HL.
  pose proof (lowlight_loop_hidden sc (selectedEntities (dataPtr s)) s) as HH.
  destruct (for_each _ _ s) as [[] s1|f]; [|done].
  destruct HL as (Ht & m' & -> & Hm'). exec. specialize (HH _ eq_refl).
  split; [done|]. exists m'. split; [done|]. split; [exact HH|]. reflexivity.
Qed.

Lemma DeselectAllEntities_no_scene (s : System) :
  scene (dataPtr s) = None → DeselectAllEntities s = Normal tt s.
Proof. intros Hsc. unfold DeselectAllEntities. exec. by rewrite Hsc. Qed.

(** ** Selecting a visual *)

Lemma same_graph_refl sc : same_graph sc sc.
Proof. by repeat split. Qed.

Lemma same_graph_VisualById sc sc' id :
  same_graph sc sc' → VisualById sc' id = VisualById sc id.
Proof. intros (Hv&_&_). unfold VisualById. by rewrite Hv. Qed.

(** [SetSelectedEntity] on a visual that carries a non-null entity, with a
    scene at hand: the identifier appended is the visual's [Id]. *)
Lemma SetSelectedEntity_spec (s : System) (sc : Scene) (v : Visual) (i : Z) :
  scene (dataPtr s) = Some sc →
  UserData v "gazebo-entity" = v_int i →
  Entity_of_int i ≠ kNullEntity →
  ∃ sc' wbx,
    same_graph sc sc' ∧
    SetSelectedEntity (Some v) s =
      Normal tt
        {| dataPtr :=
             set_selectedEntities (selectedEntities (dataPtr s) ++ [Id v])
               (set_wireBoxes
                  (<[Entity_of_int i := wbx]> (wireBoxes (dataPtr s)))
                  (set_scene (Some sc') (dataPtr s)));
           effects :=
             effects s
               ++ [App_sendEvent
                     (events.EntitiesSelected
                        (selectedEntities (dataPtr s) ++ [Id v]) true)] |}.
Proof.
  intros Hsc Hu Hnn. unfold SetSelectedEntity. exec. rewrite Hu. exec.
  destruct (Z.eqb_spec (Entity_of_int i) kNullEntity) as [|_]; [done|]. exec.
  unfold HighlightNode. exec. rewrite Hu. exec.
  destruct (wireBoxes (dataPtr s) !! Entity_of_int i) as [wireBox|] eqn:Hw.
  - exec. exists sc. eexists. split; [apply same_graph_refl|].
    rewrite <- Hsc. reflexivity.
  - rewrite Hsc. exec.
    destruct (Materials sc !! "highlight_material"%string) eqn:Hm; exec.
    + exists sc. eexists. split; [apply same_graph_refl|].
      rewrite <- Hsc. reflexivity.
    + eexists. eexists. split; [|reflexivity]. by repeat split.
Qed.

(** ** One pass of [HandleEntitySelection] *)

(** Case on the result of the [DeselectAllEntities] call in the goal. *)
Ltac run_DeselectAllEntities sc Hsc Ht m' Hm' Hh :=
  match goal with
  | |- context [DeselectAllEntities ?x] =>
      let HD := fresh "HD" in
      assert (HD := DeselectAllEntities_spec x sc Hsc);
      destruct (DeselectAllEntities x) as [[] ?|?];
      [destruct HD as (Ht & m' & Hm' & Hh & ->); exec_in Hm'; exec_in Hh
      |destruct HD as (-> & Ht)];
      exec_in Ht
  end.

Ltac run_SetSelectedEntity sc v i Hsc Hu Hn sc' wbx Hg :=
  match goal with
  | |- context [SetSelectedEntity (Some v) ?x] =>
      destruct (SetSelectedEntity_spec x sc v i Hsc Hu Hn)
        as (sc' & wbx & Hg & ->)
  end.

Ltac effects_eq :=
  cbn [effects]; rewrite <- ?app_assoc; reflexivity.

Lemma HandleEntitySelection_spec (w : World) (s : System) :
  match HandleEntitySelection w s with
  | Normal _ s' => handled w s s'
  | Faulted f => faulty s f
  end.
Proof.
  unfold HandleEntitySelection. exec.
  destruct (mouseDirty (dataPtr s)) eqn:Hd; exec_bool; exec;
    [|by apply handled_idle].
  unfold faulty. rewrite Hd.
  destruct (scene (dataPtr s)) as [sc|] eqn:Hsc; exec; [|done].
  destruct (VisualAt sc (camera (dataPtr s)) (events.Pos (mouseEvent (dataPtr s))))
    as [v|] eqn:Hv; exec.
  - destruct (UserData v "gazebo-entity") eqn:Hu; exec;
      try (split; [done|]; split; [done|]; right; simpl; by rewrite Hu).
    destruct (deselectAll (selectionHelper (dataPtr s))) eqn:Hda; exec.
    + run_DeselectAllEntities sc Hsc Ht m' Hm' Hh; exec; [|auto].
      eapply handled_pending; eauto. effects_eq.
    + destruct (Z.eqb_spec (Entity_of_int i) kNullEntity) as [Hn|Hn];
        exec_bool; exec.
      { eapply handled_null; eauto. }
      unfold UpdateSelectedEntity. exec.
      change ((negb (ControlHeld w)
                 && negb (bool_decide (selectedEntities (dataPtr s) = [])))
              || transformControlActive (dataPtr s))
        with (clears w (dataPtr s)).
      destruct (clears w (dataPtr s)) eqn:Hc; exec.
      * run_DeselectAllEntities sc Hsc Ht m' Hm' Hh; exec; [|auto].
        run_SetSelectedEntity sc v i Hsc Hu Hn sc' wbx Hg.
        exec. rewrite orb_true_r. exec.
        eapply handled_select with (m1 := m') (wbx := wbx) (sc' := sc'); eauto.
        -- by rewrite Hc.
        -- by rewrite Hc.
        -- rewrite Hc, orb_true_r. effects_eq.
      * run_SetSelectedEntity sc v i Hsc Hu Hn sc' wbx Hg.
        exec. rewrite orb_false_r.
        destruct (sendEvent (selectionHelper (dataPtr s))) eqn:Hse; exec;
          (eapply handled_select
             with (m1 := wireBoxes (dataPtr s)) (wbx := wbx) (sc' := sc');
           eauto; rewrite Hc; [done|done|]);
          rewrite Hse; exec_bool; effects_eq.
  - run_DeselectAllEntities sc Hsc Ht m' Hm' Hh; exec; [|auto].
    eapply handled_miss; eauto. effects_eq.
Qed.

(** ** [Initialize] and [eventFilter] *)

Lemma Initialize_spec (w : World) (s : System) :
  ∃ s1, Initialize w s = Normal tt s1 ∧ initialized w s s1.
Proof.
  unfold Initialize, initialized. exec.
  destruct (scene (dataPtr s)) as [sc|] eqn:Hsc; exec.
  { exists s. by repeat split. }
  destruct (sceneFromFirstRenderEngine w) as [sc|] eqn:Hw; exec.
  - destruct (as_Camera (SensorByName sc "Scene3DCamera")) eqn:Hc; exec;
      eexists; (split; [reflexivity|]); exec; repeat split; auto.
  - eexists. split; [reflexivity|]. exec. repeat split; auto.
Qed.

Lemma eventFilter_Render (w : World) (s : System) :
  eventFilter w events.Render s =
  match Initialize w s with
  | Normal _ s1 =>
      match HandleEntitySelection w s1 with
      | Normal _ s' => Normal false s'
      | Faulted f => Faulted f
      end
  | Faulted f => Faulted f
  end.
Proof.
  unfold eventFilter. exec. destruct (Initialize w s); [|done].
  by destruct (HandleEntitySelection w s0).
Qed.

(** A render pass that returns: [Initialize], then a handled click. *)
Lemma eventFilter_Render_inv (w : World) (s s' : System) (b : bool) :
  eventFilter w events.Render s = Normal b s' →
  ∃ s1, initialized w s s1 ∧ handled w s1 s' ∧
        Initialize w s = Normal tt s1 ∧
        HandleEntitySelection w s1 = Normal tt s'.
Proof.
  rewrite eventFilter_Render.
  destruct (Initialize_spec w s) as (s1 & -> & Hi).
  pose proof (HandleEntitySelection_spec w s1) as HH.
  destruct (HandleEntitySelection w s1) as [[] s2|f] eqn:HE; [|done].
  intros [= <- <-]. by exists s1.
Qed.

(** The other events. *)
Lemma eventFilter_other (w : World) (e : events.QEvent) (s s' : System)
    (b : bool) :
  is_Render e = false →
  eventFilter w e s = Normal b s' →
  selectionHelper (dataPtr s') = selectionHelper (dataPtr s) ∧
  selectedEntities (dataPtr s') = selectedEntities (dataPtr s) ∧
  scene (dataPtr s') = scene (dataPtr s) ∧
  wireBoxes (dataPtr s') = wireBoxes (dataPtr s) ∧
  camera (dataPtr s') = camera (dataPtr s) ∧
  effects s' = effects s ∧
  mouseDirty (dataPtr s') =
    (is_LeftClickOnScene e || mouseDirty (dataPtr s)).
Proof.
  intros He. unfold eventFilter. destruct e; try done; exec;
    intros [= <- <-]; exec; by destruct s as [[] ?].
Qed.

(** ** The invariant of the reachable states *)

Lemma VisualById_Id sc id v : VisualById sc id = Some v → Id v = id.
Proof.
  unfold VisualById. intros H. apply find_some in H as [_ H]. lia.
Qed.

Lemma Scene_ok_range sc id v :
  Scene_ok sc = true → VisualById sc id = Some v → 0 ≤ Id v < 2 ^ 32.
Proof.
  unfold Scene_ok, VisualById. intros Hok H. apply find_some in H as [Hin _].
  rewrite forallb_forall in Hok. specialize (Hok v Hin). lia.
Qed.

Lemma VisualAt_VisualById sc cam pos v :
  Scene_ok sc = true →
  VisualAt sc cam pos = Some v →
  VisualById sc (uint_of_Entity (Id v)) = Some v.
Proof.
  unfold VisualAt. intros Hok H.
  destruct (RayQuery sc cam pos) as [id|]; [|done].
  pose proof (Scene_ok_range _ _ _ Hok H) as Hr.
  unfold uint_of_Entity. rewrite Z.mod_small by lia.
  by rewrite (VisualById_Id _ _ _ H).
Qed.

Lemma same_graph_Scene_ok sc sc' :
  same_graph sc sc' → Scene_ok sc = true → Scene_ok sc' = true.
Proof. intros (Hv&_&_). unfold Scene_ok. by rewrite Hv. Qed.

Lemma selected_ok_mono sc sc' m m' entity :
  same_graph sc sc' →
  (∀ e, is_Some (m !! e) → is_Some (m' !! e)) →
  selected_ok sc m entity → selected_ok sc' m' entity.
Proof.
  intros Hg Hm (v & i & Hv & Hu & Hn & Hs). exists v, i.
  rewrite (same_graph_VisualById _ _ _ Hg). auto.
Qed.

Lemma state_ok_initial : state_ok initial.
Proof. by repeat split. Qed.

Lemma initialized_state_ok w s s1 :
  World_ok w = true → initialized w s s1 → state_ok s → state_ok s1.
Proof.
  unfold World_ok, initialized, state_ok.
  intros Hw (Hh & Hl & Hm & _ & _ & _ & Hsc) (Hda & Hinv).
  rewrite Hh, Hl, Hm. split; [done|].
  destruct (scene (dataPtr s)) as [sc|] eqn:Hs.
  - subst s1. by rewrite Hs.
  - destruct Hsc as (-> & _). destruct Hinv as (-> & ->).
    destruct (sceneFromFirstRenderEngine w); auto.
Qed.

Lemma handled_state_ok w s s' : handled w s s' → state_ok s → state_ok s'.
Proof.
  unfold state_ok. intros H (Hda & Hinv).
  destruct H as [Hd -> | sc m' Hd Hsc Hv Hm Hh Hp He
                | sc v i m' Hd Hsc Hv Hu Hda' Hm Hh Hp He
                | sc v i Hd Hsc Hv Hu Hda' Hn Hp He
                | sc v i m1 wbx sc' Hd Hsc Hv Hu Hda' Hn Hm Hg Hp He].
  - done.
  - rewrite Hp. exec. rewrite Hsc in *. destruct Hinv. auto.
  - congruence.
  - rewrite Hp. exec. by rewrite Hsc in *.
  - rewrite Hp. exec_in Hp. cbn [SelectionHelper_default]. exec.
    split; [done|]. rewrite Hsc in Hinv. destruct Hinv as (Hok & Hall).
    split; [by eapply same_graph_Scene_ok|].
    apply Forall_app. split.
    + destruct (clears w (dataPtr s)); [constructor|]. subst m1.
      eapply Forall_impl; [exact Hall|]. intros entity.
      apply selected_ok_mono; [done|]. intros e Hs.
      destruct (decide (Entity_of_int i = e)) as [<-|Hne].
      * by rewrite lookup_insert_eq.
      * by rewrite lookup_insert_ne.
    + constructor; [|constructor]. exists v, i.
      rewrite (same_graph_VisualById _ _ _ Hg).
      rewrite (VisualAt_VisualById _ _ _ _ Hok Hv).
      by rewrite lookup_insert_eq.
Qed.

Lemma eventFilter_state_ok w e s s' b :
  World_ok w = true →
  eventFilter w e s = Normal b s' → state_ok s → state_ok s'.
Proof.
  intros Hw He Hok. destruct (is_Render e) eqn:Hr.
  - destruct e; try done.
    apply eventFilter_Render_inv in He as (s1 & Hi & Hh & _).
    eapply handled_state_ok; [done|]. by eapply initialized_state_ok.
  - apply (eventFilter_other _ _ _ _ _ Hr) in He
      as (Hh & Hl & Hsc & Hm & _ & _ & _).
    unfold state_ok in *. by rewrite Hh, Hl, Hsc, Hm.
Qed.

Lemma run_state_ok evs s s' :
  Worlds_ok evs = true → run evs s = Normal tt s' → state_ok s → state_ok s'.
Proof.
  revert s. induction evs as [|[w e] evs IH]; intros s Hw Hrun Hok; simpl in *.
  - by injection Hrun as <-.
  - apply andb_true_iff in Hw as [Hw Hws].
    destruct (eventFilter w e s) as [b s1|f] eqn:He; [|done].
    eapply IH; eauto. by eapply eventFilter_state_ok.
Qed.

Lemma reachable_state_ok s : reachable s → state_ok s.
Proof.
  intros (evs & Hw & Hrun). eapply run_state_ok; eauto. apply state_ok_initial.
Qed.

Lemma selected_ok_typed sc m l :
  Forall (selected_ok sc m) l → selection_typed sc l = true.
Proof.
  intros H. apply forallb_forall. intros entity Hin.
  rewrite Forall_forall in H. apply list_elem_of_In in Hin.
  destruct (H _ Hin) as (v & i & Hv & Hu & _).
  unfold entity_typed, visual_typed. by rewrite Hv, Hu.
Qed.

Lemma reachable_typed s sc :
  reachable s → scene (dataPtr s) = Some sc →
  selection_typed sc (selectedEntities (dataPtr s)) = true.
Proof.
  intros Hr Hsc. apply reachable_state_ok in Hr as (_ & Hinv).
  rewrite Hsc in Hinv. destruct Hinv. by eapply selected_ok_typed.
Qed.

(** ** Deselecting everything *)

(** C10: when the scene pointer is null, [DeselectAllEntities] returns the
    state it was called in: the selection list is unchanged and no event is
    sent. *)
Theorem DeselectAllEntities_null_scene (s : System) :
  scene (dataPtr s) = None →
  DeselectAllEntities s = Normal tt s ∧
  (∀ s', DeselectAllEntities s = Normal tt s' →
         selectedEntities (dataPtr s') = selectedEntities (dataPtr s) ∧
         effects s' = effects s).
Proof.
  intros Hsc. rewrite (DeselectAllEntities_no_scene s Hsc).
  split; [done|]. by intros s' [= <-].
Qed.

(** C3: in every state in which the plugin has a scene,
    [DeselectAllEntities] leaves the selection list empty (and the wire
    boxes of the entities that were selected hidden) whenever it returns;
    it returns in every state the plugin can reach; and when it does not
    return, [std::get<int>] has thrown in [LowlightNode]. *)
Theorem DeselectAllEntities_empties (s : System) (sc : Scene) :
  scene (dataPtr s) = Some sc →
  (∀ s', DeselectAllEntities s = Normal tt s' →
         selectedEntities (dataPtr s') = [] ∧
         boxes_hidden sc (selectedEntities (dataPtr s))
           (wireBoxes (dataPtr s'))) ∧
  (reachable s → ∃ s', DeselectAllEntities s = Normal tt s') ∧
  (∀ f, DeselectAllEntities s = Faulted f →
        f = bad_variant_access ∧
        selection_typed sc (selectedEntities (dataPtr s)) = false).
Proof.
  intros Hsc. pose proof (DeselectAllEntities_spec s sc Hsc) as HD.
  destruct (DeselectAllEntities s) as [[] s1|f1].
  - destruct HD as (_ & m' & _ & Hh & ->). split; [|split].
    + by intros s' [= <-].
    + intros _. by eexists.
    + done.
  - split; [done|]. split.
    + intros Hr. pose proof (reachable_typed s sc Hr Hsc). destruct HD.
      congruence.
    + by intros f [= <-].
Qed.

(** ** Handling a click *)

Lemma reachable_not_faulty_hit (s : System) (sc : Scene) (f : Fault) :
  reachable s →
  scene (dataPtr s) = Some sc →
  visual_typed (VisualAt sc (camera (dataPtr s))
                  (events.Pos (mouseEvent (dataPtr s)))) = true →
  ¬ faulty s f.
Proof.
  intros Hr Hsc Hv (_ & Hf). rewrite Hsc in Hf.
  destruct Hf as (_ & [Hf | Hf]); [|congruence].
  rewrite (reachable_typed s sc Hr Hsc) in Hf. done.
Qed.

(** C9: a handled click whose ray cast finds no visual empties the
    selection and sends the deselect-all event, whatever keyboard
    modifiers are held and whatever request the selection helper holds. *)
Theorem click_on_nothing_deselects_all
    (w : World) (h : SelectionHelper) (s : System) (sc : Scene) :
  reachable s →
  scene (dataPtr s) = Some sc →
  mouseDirty (dataPtr s) = true →
  VisualAt sc (camera (dataPtr s)) (events.Pos (mouseEvent (dataPtr s))) = None →
  ∃ s', HandleEntitySelection w (with_selectionHelper h s) = Normal tt s' ∧
        selectedEntities (dataPtr s') = [] ∧
        boxes_hidden sc (selectedEntities (dataPtr s))
          (wireBoxes (dataPtr s')) ∧
        effects s' =
          effects s ++ [VisualAt_effect (dataPtr s);
                        App_sendEvent (events.DeselectAllEntities true)].
Proof.
  intros Hr Hsc Hd Hv.
  pose proof (HandleEntitySelection_spec w (with_selectionHelper h s)) as HH.
  destruct (HandleEntitySelection w (with_selectionHelper h s)) as [[] s'|f].
  - exists s'. split; [done|].
    destruct HH as [Hd' _ | sc1 m' _ Hsc1 _ _ Hh Hp He
                   | sc1 v i m' _ Hsc1 Hv1 | sc1 v i _ Hsc1 Hv1
                   | sc1 v i m1 wbx sc' _ Hsc1 Hv1];
      exec_all; try congruence.
    assert (sc1 = sc) as -> by congruence.
    rewrite Hp, He. done.
  - exfalso. destruct HH as (_ & HH). exec_in HH. rewrite Hsc, Hv in HH.
    destruct HH as (_ & [HH | HH]); [|done].
    by rewrite (reachable_typed s sc Hr Hsc) in HH.
Qed.

(** While the transform control is active, a handled click that hits an
    entity first deselects everything and then selects the clicked
    visual, with or without the Control key: the selection list has one
    entry afterwards, the rendering id of that visual. *)
Theorem transform_control_suppresses_multi_select
    (w : World) (s : System) (sc : Scene) (v : Visual) (i : Z) :
  reachable s →
  scene (dataPtr s) = Some sc →
  mouseDirty (dataPtr s) = true →
  transformControlActive (dataPtr s) = true →
  VisualAt sc (camera (dataPtr s)) (events.Pos (mouseEvent (dataPtr s))) = Some v →
  UserData v "gazebo-entity" = v_int i →
  Entity_of_int i ≠ kNullEntity →
  ∃ s', HandleEntitySelection w s = Normal tt s' ∧
        selectedEntities (dataPtr s') = [Id v] ∧
        effects s' =
          effects s ++
          [VisualAt_effect (dataPtr s);
           std_cerr (cerr_line true);
           App_sendEvent (events.DeselectAllEntities true);
           App_sendEvent (events.EntitiesSelected [Id v] true);
           App_sendEvent (events.EntitiesSelected [Id v] false)].
Proof.
  intros Hr Hsc Hd Htc Hv Hu Hn.
  assert (Hc : clears w (dataPtr s) = true).
  { unfold clears. rewrite Htc. apply orb_true_r. }
  pose proof (reachable_state_ok s Hr) as (Hda & _).
  pose proof (HandleEntitySelection_spec w s) as HH.
  destruct (HandleEntitySelection w s) as [[] s'|f].
  - exists s'. split; [done|].
    destruct HH as [Hd' _ | sc1 m' _ Hsc1 Hv1
                   | sc1 v1 i1 m' _ _ _ _ Hda1
                   | sc1 v1 i1 _ Hsc1 Hv1 Hu1 _ Hn1
                   | sc1 v1 i1 m1 wbx sc' _ Hsc1 Hv1 _ _ _ _ _ Hp He];
      try congruence.
    assert (sc1 = sc) as -> by congruence.
    assert (v1 = v) as -> by congruence.
    rewrite Hp, He, Hc, Htc, orb_true_r. done.
  - exfalso. revert HH. apply reachable_not_faulty_hit with (sc := sc); auto.
    rewrite Hv. simpl. by rewrite Hu.
Qed.

(** ** The selection list as a set *)

Lemma clears_ext w d d' :
  selectedEntities d' = selectedEntities d →
  transformControlActive d' = transformControlActive d →
  clears w d' = clears w d.
Proof. unfold clears. by intros -> ->. Qed.

Lemma handled_NoDup w s s' :
  handled w s s' →
  reselects w s = false →
  NoDup (selectedEntities (dataPtr s)) →
  NoDup (selectedEntities (dataPtr s')).
Proof.
  intros H Hre Hnd.
  destruct H as [Hd -> | sc m' Hd Hsc Hv Hm Hh Hp He
                | sc v i m' Hd Hsc Hv Hu Hda' Hm Hh Hp He
                | sc v i Hd Hsc Hv Hu Hda' Hn Hp He
                | sc v i m1 wbx sc' Hd Hsc Hv Hu Hda' Hn Hm Hg Hp He];
    try done; rewrite Hp; exec; try constructor; try done.
  unfold reselects in Hre. rewrite Hd, Hsc, Hv in Hre.
  destruct (clears w (dataPtr s)).
  - apply NoDup_singleton.
  - simpl in Hre. apply bool_decide_eq_false in Hre.
    apply NoDup_app. split; [done|]. split; [|apply NoDup_singleton].
    intros x Hx Hx'. apply list_elem_of_singleton in Hx'. by subst.
Qed.

Lemma run_NoDup evs s s' :
  no_reselection evs s = true →
  run evs s = Normal tt s' →
  NoDup (selectedEntities (dataPtr s)) ∧
    (scene (dataPtr s) = None → selectedEntities (dataPtr s) = []) →
  NoDup (selectedEntities (dataPtr s')).
Proof.
  revert s. induction evs as [|[w e] evs IH]; intros s Hno Hrun [Hnd Hnone];
    simpl in *.
  - by injection Hrun as <-.
  - apply andb_true_iff in Hno as [Hre Hno].
    destruct (eventFilter w e s) as [b s1|f] eqn:He; [|done].
    apply (IH s1 Hno Hrun). clear IH Hno Hrun.
    destruct (is_Render e) eqn:Hr.
    + destruct e; try done. simpl in Hre. apply negb_true_iff in Hre.
      apply eventFilter_Render_inv in He as (s0 & Hi & Hh & _).
      destruct Hi as (_ & Hl & _ & Hme & Hmd & Htc & Hsc).
      assert (Hre0 : reselects w s0 = false).
      { destruct (scene (dataPtr s)) eqn:Hs; [by subst s0|].
        unfold reselects. rewrite Hl, (Hnone eq_refl).
        destruct (scene (dataPtr s0)); [|by rewrite andb_false_r].
        destruct (VisualAt _ _ _); [|by rewrite andb_false_r].
        rewrite bool_decide_eq_false_2; [by rewrite andb_false_r|].
        apply not_elem_of_nil. }
      split.
      * eapply handled_NoDup; eauto. by rewrite Hl.
      * intros Hs1.
        destruct Hh as [Hd -> | sc m' Hd Hsc' Hv Hm Hh Hp He
                | sc v i m' Hd Hsc' Hv Hu Hda' Hm Hh Hp He
                | sc v i Hd Hsc' Hv Hu Hda' Hn Hp He
                | sc v i m1 wbx sc' Hd Hsc' Hv Hu Hda' Hn Hm Hg Hp He];
          try (rewrite Hp in *; exec_all; congruence).
        rewrite Hl. destruct (scene (dataPtr s)) eqn:Hs; [|auto].
        subst s0. congruence.
    + apply (eventFilter_other _ _ _ _ _ Hr) in He
        as (_ & Hl & Hsc & _). by rewrite Hl, Hsc.
Qed.

(** C1, as the code has it: the selection list has no duplicate
    identifiers in any session in which no render pass handles a click on
    an already selected visual with the Control key held and the transform
    control inactive. *)
Theorem selection_NoDup_without_reselection
    (evs : list (World * events.QEvent)) (s : System) :
  no_reselection evs initial = true →
  run evs initial = Normal tt s →
  NoDup (selectedEntities (dataPtr s)).
Proof.
  intros Hno Hrun. eapply run_NoDup; eauto.
  split; [constructor|done].
Qed.

(** ** The dirty flag *)

Lemma ray_queries_app l l' :
  ray_queries (l ++ l') = (ray_queries l + ray_queries l')%nat.
Proof. unfold ray_queries. by rewrite List.filter_app, length_app. Qed.

Lemma events_sent_app l l' :
  events_sent (l ++ l') = (events_sent l + events_sent l')%nat.
Proof. unfold events_sent. by rewrite List.filter_app, length_app. Qed.

Lemma initialized_effects w s s1 :
  initialized w s s1 →
  ray_queries (effects s1) = ray_queries (effects s) ∧
  events_sent (effects s1) = events_sent (effects s) ∧
  pending s1 = pending s.
Proof.
  intros (_ & _ & _ & _ & Hd & _ & Hsc). unfold pending. rewrite Hd.
  destruct (scene (dataPtr s)); [by subst|].
  destruct Hsc as (_ & [-> | ->]); [done|].
  rewrite ray_queries_app, events_sent_app.
  change (ray_queries [ignerr "Camera is not available"]) with 0%nat.
  change (events_sent [ignerr "Camera is not available"]) with 0%nat.
  lia.
Qed.

(** A handled click costs exactly one ray query, and only if one was
    pending; the flag is down afterwards. *)
Lemma handled_ray_queries w s s' :
  handled w s s' →
  ray_queries (effects s') = (ray_queries (effects s) + pending s)%nat ∧
  mouseDirty (dataPtr s') = false.
Proof.
  unfold pending.
  intros [Hd -> | sc m' Hd Hsc Hv Hm Hh Hp He
         | sc v i m' Hd Hsc Hv Hu Hda' Hm Hh Hp He
         | sc v i Hd Hsc Hv Hu Hda' Hn Hp He
         | sc v i m1 wbx sc' Hd Hsc Hv Hu Hda' Hn Hm Hg Hp He];
    rewrite Hd; [split; [lia|done]|..]; rewrite Hp, He; (split; [|done]);
    rewrite !ray_queries_app; try done.
  destruct (clears w (dataPtr s)), (sendEvent (selectionHelper (dataPtr s)));
    done.
Qed.

Lemma eventFilter_ray_queries w e s s' b :
  eventFilter w e s = Normal b s' →
  (ray_queries (effects s') + pending s' ≤
   ray_queries (effects s) + pending s
   + (if is_LeftClickOnScene e then 1 else 0))%nat.
Proof.
  intros He. destruct (is_Render e) eqn:Hr.
  - destruct e; try done.
    apply eventFilter_Render_inv in He as (s1 & Hi & Hh & _).
    apply initialized_effects in Hi as (Hq & _ & Hp).
    apply handled_ray_queries in Hh as (Hq' & Hd').
    unfold pending at 1. rewrite Hd'. simpl. lia.
  - apply (eventFilter_other _ _ _ _ _ Hr) in He
      as (_ & _ & _ & _ & _ & -> & Hd).
    unfold pending. rewrite Hd.
    destruct (is_LeftClickOnScene e), (mouseDirty (dataPtr s)); simpl; lia.
Qed.

Lemma run_ray_queries evs s s' :
  run evs s = Normal tt s' →
  (ray_queries (effects s') + pending s' ≤
   ray_queries (effects s) + pending s + clicks evs)%nat.
Proof.
  revert s. induction evs as [|[w e] evs IH]; intros s Hrun; simpl in *.
  - injection Hrun as <-. unfold clicks. simpl. lia.
  - destruct (eventFilter w e s) as [b s1|f] eqn:He; [|done].
    apply IH in Hrun. apply eventFilter_ray_queries in He.
    unfold clicks in *. simpl. destruct (is_LeftClickOnScene e); simpl; lia.
Qed.

(** C4: the left-click handler only stores the mouse event and raises the
    flag; events other than a render pass leave the selection, the wire
    boxes and the effect trace alone; a render pass with the flag down
    changes nothing of the selection and makes no ray query; a render
    pass that returns makes one ray query exactly when the flag was up and
    leaves it down; and over a whole session there are at most as many ray
    queries as clicks. *)
Theorem click_handling_is_deferred :
  (∀ w mouse s,
     eventFilter w (events.LeftClickOnScene mouse) s =
     Normal false
       {| dataPtr := set_mouseDirty true (set_mouseEvent mouse (dataPtr s));
          effects := effects s |}) ∧
  (∀ w e s b s',
     is_Render e = false →
     eventFilter w e s = Normal b s' →
     selectedEntities (dataPtr s') = selectedEntities (dataPtr s) ∧
     wireBoxes (dataPtr s') = wireBoxes (dataPtr s) ∧
     effects s' = effects s) ∧
  (∀ w s, mouseDirty (dataPtr s) = false →
          HandleEntitySelection w s = Normal tt s) ∧
  (∀ w s b s',
     eventFilter w events.Render s = Normal b s' →
     mouseDirty (dataPtr s') = false ∧
     ray_queries (effects s') = (ray_queries (effects s) + pending s)%nat ∧
     (mouseDirty (dataPtr s) = false →
      selectedEntities (dataPtr s') = selectedEntities (dataPtr s) ∧
      wireBoxes (dataPtr s') = wireBoxes (dataPtr s) ∧
      events_sent (effects s') = events_sent (effects s))) ∧
  (∀ evs s, run evs initial = Normal tt s →
            (ray_queries (effects s) ≤ clicks evs)%nat).
Proof.
  split; [|split; [|split; [|split]]].
  - reflexivity.
  - intros w e s b s' Hr He.
    apply (eventFilter_other _ _ _ _ _ Hr) in He. tauto.
  - intros w s Hd. unfold HandleEntitySelection. exec. by rewrite Hd.
  - intros w s b s' He.
    apply eventFilter_Render_inv in He as (s1 & Hi & Hh & _ & HH).
    pose proof (initialized_effects _ _ _ Hi) as (Hq & Hs & Hp).
    pose proof (handled_ray_queries _ _ _ Hh) as (Hq' & Hd').
    split; [done|]. split; [lia|]. intros Hd.
    destruct Hi as (_ & Hl & Hm & _ & Hmd & _).
    rewrite Hd in Hmd.
    destruct Hh as [_ -> | ? ? Hd1 | ? ? ? ? Hd1 | ? ? ? Hd1
                   | ? ? ? ? ? ? Hd1]; [done|congruence..].
  - intros evs s Hrun. apply run_ray_queries in Hrun.
    unfold pending in Hrun at 2. simpl in Hrun. lia.
Qed.

(** ** The wire boxes and the history of the selection *)

Lemma state_ok_selected_now s :
  state_ok s → selected_now s ⊆ dom (wireBoxes (dataPtr s)).
Proof.
  intros (_ & Hinv) e. unfold selected_now.
  destruct (scene (dataPtr s)) as [sc|]; [|set_solver].
  destruct Hinv as (_ & Hall). rewrite elem_of_list_to_set, list_elem_of_omap.
  intros (entity & Hin & He). rewrite Forall_forall in Hall.
  destruct (Hall _ Hin) as (v & i & Hv & Hu & _ & Hs).
  unfold entity_of in He. rewrite Hv, Hu in He. injection He as <-.
  by apply elem_of_dom.
Qed.

Lemma handled_wireBoxes w s s' :
  handled w s s' →
  state_ok s →
  dom (wireBoxes (dataPtr s)) ⊆ dom (wireBoxes (dataPtr s')) ∧
  dom (wireBoxes (dataPtr s')) ⊆ dom (wireBoxes (dataPtr s)) ∪ selected_now s'.
Proof.
  intros H (_ & Hinv).
  destruct H as [Hd -> | sc m' Hd Hsc Hv Hm Hh Hp He
                | sc v i m' Hd Hsc Hv Hu Hda' Hm Hh Hp He
                | sc v i Hd Hsc Hv Hu Hda' Hn Hp He
                | sc v i m1 wbx sc' Hd Hsc Hv Hu Hda' Hn Hm Hg Hp He];
    [set_solver| | | |]; unfold selected_now; rewrite Hp; exec;
    rewrite ?(hides_dom _ _ Hm); [set_solver..|].
  rewrite Hsc in Hinv. destruct Hinv as (Hok & _).
  assert (Hdom : dom m1 = dom (wireBoxes (dataPtr s))).
  { destruct (clears w (dataPtr s)); [by apply hides_dom|by subst]. }
  rewrite dom_insert_L, Hdom. split; [set_solver|].
  assert (Entity_of_int i ∈
            (list_to_set
               (omap (entity_of sc')
                  ((if clears w (dataPtr s) then []
                    else selectedEntities (dataPtr s)) ++ [Id v])) : gset Z)).
  { rewrite elem_of_list_to_set, list_elem_of_omap. exists (Id v).
    split; [apply elem_of_app; right; by apply list_elem_of_singleton|].
    unfold entity_of. rewrite (same_graph_VisualById _ _ _ Hg).
    by rewrite (VisualAt_VisualById _ _ _ _ Hok Hv), Hu. }
  set_solver.
Qed.

Lemma eventFilter_wireBoxes w e s s' b :
  World_ok w = true →
  eventFilter w e s = Normal b s' →
  state_ok s →
  dom (wireBoxes (dataPtr s)) ⊆ dom (wireBoxes (dataPtr s')) ∧
  dom (wireBoxes (dataPtr s')) ⊆ dom (wireBoxes (dataPtr s)) ∪ selected_now s'.
Proof.
  intros Hw He Hok. destruct (is_Render e) eqn:Hr.
  - destruct e; try done.
    apply eventFilter_Render_inv in He as (s1 & Hi & Hh & _).
    pose proof (initialized_state_ok _ _ _ Hw Hi Hok) as Hok1.
    destruct Hi as (_ & _ & Hm & _). rewrite <- Hm.
    by apply (handled_wireBoxes w).
  - apply (eventFilter_other _ _ _ _ _ Hr) in He as (_ & _ & _ & -> & _).
    set_solver.
Qed.

Lemma run_wireBoxes evs s s' :
  Worlds_ok evs = true →
  run evs s = Normal tt s' →
  state_ok s →
  dom (wireBoxes (dataPtr s')) =
    dom (wireBoxes (dataPtr s)) ∪ ever_selected evs s.
Proof.
  revert s. induction evs as [|[w e] evs IH]; intros s Hw Hrun Hok; simpl in *.
  - injection Hrun as <-. pose proof (state_ok_selected_now s Hok). set_solver.
  - apply andb_true_iff in Hw as [Hw Hws].
    destruct (eventFilter w e s) as [b s1|f] eqn:He; [|done].
    pose proof (eventFilter_state_ok _ _ _ _ _ Hw He Hok) as Hok1.
    pose proof (eventFilter_wireBoxes _ _ _ _ _ Hw He Hok) as [Hsub Hsup].
    rewrite (IH s1 Hws Hrun Hok1).
    pose proof (state_ok_selected_now s Hok).
    assert (selected_now s1 ⊆ ever_selected evs s1).
    { destruct evs as [|[]]; simpl; set_solver. }
    set_solver.
Qed.

(** C7: at every point of a session, the wire-box map has an entry for an
    entity exactly when that entity was selected at that point or
    earlier; and deselecting never removes an entry: [LowlightNode] and
    [DeselectAllEntities] keep the keys, and change a box at most by
    hiding its parent visual. *)
Theorem wire_box_iff_ever_selected
    (evs : list (World * events.QEvent)) (s : System) :
  Worlds_ok evs = true →
  run evs initial = Normal tt s →
  (∀ e, e ∈ dom (wireBoxes (dataPtr s)) ↔ e ∈ ever_selected evs initial) ∧
  (∀ vis s', LowlightNode vis s = Normal tt s' →
             hides (wireBoxes (dataPtr s)) (wireBoxes (dataPtr s')) ∧
             dom (wireBoxes (dataPtr s')) = dom (wireBoxes (dataPtr s))) ∧
  (∀ s', DeselectAllEntities s = Normal tt s' →
         hides (wireBoxes (dataPtr s)) (wireBoxes (dataPtr s')) ∧
         dom (wireBoxes (dataPtr s')) = dom (wireBoxes (dataPtr s))).
Proof.
  intros Hw Hrun. split; [|split].
  - intros e.
    rewrite (run_wireBoxes evs initial s Hw Hrun state_ok_initial).
    cbn [initial dataPtr SelectEntitiesPrivate_new wireBoxes].
    rewrite dom_empty_L. set_solver.
  - intros vis s' HL. pose proof (LowlightNode_spec vis s) as H.
    rewrite HL in H. destruct H as (_ & m' & -> & Hm). exec.
    split; [done|by apply hides_dom].
  - intros s' HD. destruct (scene (dataPtr s)) as [sc|] eqn:Hsc.
    + pose proof (DeselectAllEntities_spec s sc Hsc) as H.
      rewrite HD in H. destruct H as (_ & m' & Hm & _ & ->). exec.
      split; [done|by apply hides_dom].
    + rewrite (DeselectAllEntities_no_scene s Hsc) in HD.
      injection HD as <-. split; [apply hides_refl|done].
Qed.

(** ** A click before the scene exists *)

(** C2, at the failing input: a left click followed by a render pass,
    while no render engine has a scene yet, makes [HandleEntitySelection]
    dereference the null scene pointer. *)
Theorem click_without_scene_dereferences_null
    (mouse : events.MouseEvent) (modifiers modifiers' : Z) :
  run [({| sceneFromFirstRenderEngine := None;
           keyboardModifiers := modifiers |},
        events.LeftClickOnScene mouse);
       ({| sceneFromFirstRenderEngine := None;
           keyboardModifiers := modifiers' |},
        events.Render)]
      initial
  = Faulted NullDereference.
Proof. reflexivity. Qed.

(** ** Tools for the invariants of a session *)

(** An event either is no render pass, and then leaves all but the mouse
    and the transform flag alone, or is one: [Initialize], then
    [HandleEntitySelection]. *)
Lemma eventFilter_cases (w : World) (e : events.QEvent) (s s' : System)
    (b : bool) :
  eventFilter w e s = Normal b s' →
  (is_Render e = false ∧
   selectionHelper (dataPtr s') = selectionHelper (dataPtr s) ∧
   selectedEntities (dataPtr s') = selectedEntities (dataPtr s) ∧
   scene (dataPtr s') = scene (dataPtr s) ∧
   wireBoxes (dataPtr s') = wireBoxes (dataPtr s) ∧
   camera (dataPtr s') = camera (dataPtr s) ∧
   effects s' = effects s) ∨
  (e = events.Render ∧
   ∃ s1, initialized w s s1 ∧ handled w s1 s' ∧
         Initialize w s = Normal tt s1 ∧
         HandleEntitySelection w s1 = Normal tt s').
Proof.
  intros He. destruct (is_Render e) eqn:Hr.
  - right. destruct e; try done. split; [done|].
    by apply eventFilter_Render_inv in He.
  - left. split; [done|].
    apply (eventFilter_other _ _ _ _ _ Hr) in He. tauto.
Qed.

Lemma run_invariant (P : System → Prop) :
  (∀ w e s b s',
     World_ok w = true → state_ok s → P s →
     eventFilter w e s = Normal b s' → P s') →
  ∀ evs s s',
    Worlds_ok evs = true → state_ok s → P s →
    run evs s = Normal tt s' → P s'.
Proof.
  intros Hstep evs. induction evs as [|[w e] evs IH];
    intros s s' Hw Hok HP Hrun; simpl in *.
  - by injection Hrun as <-.
  - apply andb_true_iff in Hw as [Hw Hws].
    destruct (eventFilter w e s) as [b s1|f] eqn:He; [|done].
    apply (IH s1 s'); eauto. by eapply eventFilter_state_ok.
Qed.

Lemma reachable_invariant (P : System → Prop) :
  P initial →
  (∀ w e s b s',
     World_ok w = true → state_ok s → P s →
     eventFilter w e s = Normal b s' → P s') →
  ∀ s, reachable s → P s.
Proof.
  intros H0 Hstep s (evs & Hw & Hrun).
  eapply run_invariant; eauto. apply state_ok_initial.
Qed.

(** ** The selection helper *)

Lemma handled_helper_default w s s' :
  handled w s s' →
  selectionHelper (dataPtr s) = SelectionHelper_default →
  selectionHelper (dataPtr s') = SelectionHelper_default.
Proof.
  intros H Hh.
  destruct H as [Hd -> | sc m' Hd Hsc Hv Hm Hb Hp He
                | sc v i m' Hd Hsc Hv Hu Hda' Hm Hb Hp He
                | sc v i Hd Hsc Hv Hu Hda' Hn Hp He
                | sc v i m1 wbx sc' Hd Hsc Hv Hu Hda' Hn Hm Hg Hp He];
    try done; rewrite Hp; exec; try done.
  by rewrite Hn, Hh.
Qed.

Lemma reachable_helper_default s :
  reachable s → selectionHelper (dataPtr s) = SelectionHelper_default.
Proof.
  apply (reachable_invariant
           (λ s, selectionHelper (dataPtr s) = SelectionHelper_default));
    [done|].
  intros w e s0 b s' _ _ Hh He.
  apply eventFilter_cases in He as [(_ & -> & _) | (_ & s1 & Hi & Hhd & _)];
    [done|].
  eapply handled_helper_default; [done|].
  destruct Hi as (-> & _). done.
Qed.

(** X9: between two events the selection helper never holds a request:
    its entity is the null entity and both of its flags are down, so a
    render pass never takes the deselect-all branch of
    [HandleEntitySelection]. *)
Theorem selection_helper_never_holds_a_request (s : System) :
  reachable s →
  selectEntity (selectionHelper (dataPtr s)) = kNullEntity ∧
  deselectAll (selectionHelper (dataPtr s)) = false ∧
  sendEvent (selectionHelper (dataPtr s)) = false.
Proof. intros Hr. by rewrite (reachable_helper_default s Hr). Qed.

(** ** Clicks on a visual *)

(** A handled click on an entity, in a state the plugin can reach. *)
Lemma reachable_select (w : World) (s : System) (sc : Scene) (v : Visual)
    (i : Z) :
  reachable s →
  scene (dataPtr s) = Some sc →
  mouseDirty (dataPtr s) = true →
  VisualAt sc (camera (dataPtr s)) (events.Pos (mouseEvent (dataPtr s))) = Some v →
  UserData v "gazebo-entity" = v_int i →
  Entity_of_int i ≠ kNullEntity →
  ∃ s', HandleEntitySelection w s = Normal tt s' ∧
        selectedEntities (dataPtr s') =
          (if clears w (dataPtr s) then [] else selectedEntities (dataPtr s))
            ++ [Id v] ∧
        effects s' =
          effects s
            ++ [VisualAt_effect (dataPtr s);
                std_cerr (cerr_line (transformControlActive (dataPtr s)))]
            ++ (if clears w (dataPtr s) then [deselect_effect] else [])
            ++ [App_sendEvent
                  (events.EntitiesSelected
                     ((if clears w (dataPtr s) then []
                       else selectedEntities (dataPtr s)) ++ [Id v]) true)]
            ++ (if clears w (dataPtr s)
                then [App_sendEvent
                        (events.EntitiesSelected
                           ((if clears w (dataPtr s) then []
                             else selectedEntities (dataPtr s)) ++ [Id v])
                           false)]
                else []).
Proof.
  intros Hr Hsc Hd Hv Hu Hn.
  pose proof (reachable_helper_default s Hr) as Hh.
  pose proof (HandleEntitySelection_spec w s) as HH.
  destruct (HandleEntitySelection w s) as [[] s'|f].
  - exists s'. split; [done|].
    destruct HH as [Hd' _ | sc1 m' _ Hsc1 Hv1
                   | sc1 v1 i1 m' _ _ _ _ Hda1
                   | sc1 v1 i1 _ Hsc1 Hv1 Hu1 _ Hn1
                   | sc1 v1 i1 m1 wbx sc' _ Hsc1 Hv1 _ _ _ _ _ Hp He];
      try congruence.
    + rewrite Hh in Hda1. done.
    + assert (sc1 = sc) as -> by congruence.
      assert (v1 = v) as -> by congruence.
      rewrite Hp, He, Hh. done.
  - exfalso. revert HH. apply reachable_not_faulty_hit with (sc := sc); auto.
    rewrite Hv. simpl. by rewrite Hu.
Qed.

(** X3: with the Control key held and the transform control inactive, a
    handled click on an entity appends the clicked visual's identifier to
    the selection, deselects nothing, and announces the new selection
    once. *)
Theorem control_click_appends
    (w : World) (s : System) (sc : Scene) (v : Visual) (i : Z) :
  reachable s →
  scene (dataPtr s) = Some sc →
  mouseDirty (dataPtr s) = true →
  ControlHeld w = true →
  transformControlActive (dataPtr s) = false →
  VisualAt sc (camera (dataPtr s)) (events.Pos (mouseEvent (dataPtr s))) = Some v →
  UserData v "gazebo-entity" = v_int i →
  Entity_of_int i ≠ kNullEntity →
  ∃ s', HandleEntitySelection w s = Normal tt s' ∧
        selectedEntities (dataPtr s') = selectedEntities (dataPtr s) ++ [Id v] ∧
        effects s' =
          effects s ++
          [VisualAt_effect (dataPtr s);
           std_cerr (cerr_line false);
           App_sendEvent
             (events.EntitiesSelected
                (selectedEntities (dataPtr s) ++ [Id v]) true)].
Proof.
  intros Hr Hsc Hd Hc Htc Hv Hu Hn.
  destruct (reachable_select w s sc v i Hr Hsc Hd Hv Hu Hn)
    as (s' & HH & Hl & He).
  assert (Hcl : clears w (dataPtr s) = false).
  { unfold clears. by rewrite Hc, Htc. }
  rewrite Hcl, Htc in *. exists s'. by rewrite Hl, He.
Qed.

(** X4: without the Control key, a handled click on an entity leaves the
    clicked visual's identifier alone in the selection.  If something was
    selected (or the transform control is active) the deselect-all event
    is sent first and the new selection is announced twice; otherwise it
    is announced once. *)
Theorem plain_click_selects_only_the_clicked
    (w : World) (s : System) (sc : Scene) (v : Visual) (i : Z) :
  reachable s →
  scene (dataPtr s) = Some sc →
  mouseDirty (dataPtr s) = true →
  ControlHeld w = false →
  VisualAt sc (camera (dataPtr s)) (events.Pos (mouseEvent (dataPtr s))) = Some v →
  UserData v "gazebo-entity" = v_int i →
  Entity_of_int i ≠ kNullEntity →
  ∃ s', HandleEntitySelection w s = Normal tt s' ∧
        selectedEntities (dataPtr s') = [Id v] ∧
        effects s' =
          effects s ++
          [VisualAt_effect (dataPtr s);
           std_cerr (cerr_line (transformControlActive (dataPtr s)))] ++
          (if bool_decide (selectedEntities (dataPtr s) = [])
              && negb (transformControlActive (dataPtr s))
           then [App_sendEvent (events.EntitiesSelected [Id v] true)]
           else [App_sendEvent (events.DeselectAllEntities true);
                 App_sendEvent (events.EntitiesSelected [Id v] true);
                 App_sendEvent (events.EntitiesSelected [Id v] false)]).
Proof.
  intros Hr Hsc Hd Hc Hv Hu Hn.
  destruct (reachable_select w s sc v i Hr Hsc Hd Hv Hu Hn)
    as (s' & HH & Hl & He).
  exists s'. split; [done|]. rewrite Hl, He. unfold clears. rewrite Hc.
  destruct (bool_decide_reflect (selectedEntities (dataPtr s) = [])) as [->|];
    destruct (transformControlActive (dataPtr s)); done.
Qed.

(** X5: a handled click that hits a visual without an [int] under
    ["gazebo-entity"] (no user data, or data of another type) ends in the
    uncaught [std::bad_variant_access] of [std::get<int>], whatever else
    the state holds. *)
Theorem click_on_untyped_visual_throws
    (w : World) (s : System) (sc : Scene) (v : Visual) :
  scene (dataPtr s) = Some sc →
  mouseDirty (dataPtr s) = true →
  VisualAt sc (camera (dataPtr s)) (events.Pos (mouseEvent (dataPtr s))) = Some v →
  visual_typed (Some v) = false →
  HandleEntitySelection w s = Faulted bad_variant_access.
Proof.
  intros Hsc Hd Hv Ht.
  pose proof (HandleEntitySelection_spec w s) as HH.
  destruct (HandleEntitySelection w s) as [[] s'|f].
  - exfalso. simpl in Ht.
    destruct HH as [Hd' _ | sc1 m' _ Hsc1 Hv1
                   | sc1 v1 i1 m' _ Hsc1 Hv1 Hu1
                   | sc1 v1 i1 _ Hsc1 Hv1 Hu1
                   | sc1 v1 i1 m1 wbx sc' _ Hsc1 Hv1 Hu1];
      try congruence;
      assert (sc1 = sc) as -> by congruence;
      assert (v1 = v) as -> by congruence; by rewrite Hu1 in Ht.
  - destruct HH as (_ & HH). rewrite Hsc in HH. by destruct HH as (-> & _).
Qed.

(** X6: a handled click on a visual whose entity is the null entity
    selects and deselects nothing: the selection, the wire boxes and the
    scene stay as they are and no event is sent; only the ray query was
    made and the click is used up. *)
Theorem click_on_null_entity_is_ignored
    (w : World) (s : System) (sc : Scene) (v : Visual) (i : Z) :
  reachable s →
  scene (dataPtr s) = Some sc →
  mouseDirty (dataPtr s) = true →
  VisualAt sc (camera (dataPtr s)) (events.Pos (mouseEvent (dataPtr s))) = Some v →
  UserData v "gazebo-entity" = v_int i →
  Entity_of_int i = kNullEntity →
  ∃ s', HandleEntitySelection w s = Normal tt s' ∧
        dataPtr s' = set_mouseDirty false (dataPtr s) ∧
        effects s' = effects s ++ [VisualAt_effect (dataPtr s)].
Proof.
  intros Hr Hsc Hd Hv Hu Hn.
  pose proof (reachable_helper_default s Hr) as Hh.
  pose proof (HandleEntitySelection_spec w s) as HH.
  destruct (HandleEntitySelection w s) as [[] s'|f].
  - exists s'. split; [done|].
    destruct HH as [Hd' _ | sc1 m' _ Hsc1 Hv1
                   | sc1 v1 i1 m' _ _ _ _ Hda1
                   | sc1 v1 i1 _ Hsc1 Hv1 Hu1 _ Hn1 Hp He
                   | sc1 v1 i1 m1 wbx sc' _ Hsc1 Hv1 Hu1 _ Hn1];
      try congruence.
    + rewrite Hh in Hda1. done.
    + split; [|done]. rewrite Hp, Hn1, Hh.
      destruct (dataPtr s) as [h ? ? ? ? ? ? ?]. simpl in Hh. by subst h.
  - exfalso. revert HH. apply reachable_not_faulty_hit with (sc := sc); auto.
    rewrite Hv. simpl. by rewrite Hu.
Qed.

(** ** [Initialize], [HighlightNode] and [SetSelectedEntity] in full *)

Lemma Initialize_in_use (w : World) (s s1 : System) :
  Initialize w s = Normal tt s1 →
  scene (dataPtr s1) = scene_in_use w s ∧
  camera (dataPtr s1) = camera_in_use w s ∧
  effects s1 =
    effects s ++ (if camera_missing w s
                  then [ignerr "Camera is not available"] else []).
Proof.
  unfold Initialize, scene_in_use, camera_in_use, camera_missing. exec.
  destruct (scene (dataPtr s)) as [sc|] eqn:Hsc; exec.
  { intros [= <-]. by rewrite Hsc, app_nil_r. }
  destruct (sceneFromFirstRenderEngine w) as [sc|] eqn:Hw; exec.
  - destruct (as_Camera (SensorByName sc "Scene3DCamera")) eqn:Hc; exec;
      intros [= <-]; exec; by rewrite ?app_nil_r.
  - intros [= <-]. exec. by rewrite app_nil_r.
Qed.

Lemma materials_step_refl m : materials_step m m.
Proof. by left. Qed.

Lemma HighlightNode_exact (s : System) (sc : Scene) (v : Visual) (i : Z) :
  scene (dataPtr s) = Some sc →
  UserData v "gazebo-entity" = v_int i →
  ∃ sc',
    HighlightNode (Some v) s =
      Normal tt
        {| dataPtr :=
             set_wireBoxes
               (<[Entity_of_int i :=
                    highlighted_box v
                      (wireBoxes (dataPtr s) !! Entity_of_int i)]>
                  (wireBoxes (dataPtr s)))
               (set_scene (Some sc') (dataPtr s));
           effects := effects s |} ∧
    same_graph sc sc' ∧
    materials_step (Materials sc) (Materials sc') ∧
    (wireBoxes (dataPtr s) !! Entity_of_int i = None →
     is_Some (Materials sc' !! "highlight_material"%string)).
Proof.
  intros Hsc Hu. unfold HighlightNode. exec. rewrite Hu. exec.
  destruct (wireBoxes (dataPtr s) !! Entity_of_int i) as [wireBox|] eqn:Hw.
  - exec. exists sc. split; [by rewrite <- Hsc|].
    split; [apply same_graph_refl|]. split; [apply materials_step_refl|done].
  - rewrite Hsc. exec.
    destruct (Materials sc !! "highlight_material"%string) eqn:Hm; exec.
    + exists sc. split; [by rewrite <- Hsc|].
      split; [apply same_graph_refl|]. split; [apply materials_step_refl|].
      intros _. by rewrite Hm.
    + eexists. split; [reflexivity|]. split; [by repeat split|].
      split; [by right|]. intros _. cbn [Materials SetMaterials].
      by rewrite lookup_insert_eq.
Qed.

Lemma SetSelectedEntity_exact (s : System) (sc : Scene) (v : Visual) (i : Z) :
  scene (dataPtr s) = Some sc →
  UserData v "gazebo-entity" = v_int i →
  Entity_of_int i ≠ kNullEntity →
  ∃ sc',
    SetSelectedEntity (Some v) s =
      Normal tt
        {| dataPtr :=
             set_selectedEntities (selectedEntities (dataPtr s) ++ [Id v])
               (set_wireBoxes
                  (<[Entity_of_int i :=
                       highlighted_box v
                         (wireBoxes (dataPtr s) !! Entity_of_int i)]>
                     (wireBoxes (dataPtr s)))
                  (set_scene (Some sc') (dataPtr s)));
           effects :=
             effects s
               ++ [App_sendEvent
                     (events.EntitiesSelected
                        (selectedEntities (dataPtr s) ++ [Id v]) true)] |} ∧
    same_graph sc sc' ∧
    materials_step (Materials sc) (Materials sc') ∧
    (wireBoxes (dataPtr s) !! Entity_of_int i = None →
     is_Some (Materials sc' !! "highlight_material"%string)).
Proof.
  intros Hsc Hu Hnn. unfold SetSelectedEntity. exec. rewrite Hu. exec.
  destruct (Z.eqb_spec (Entity_of_int i) kNullEntity) as [|_]; [done|]. exec.
  match goal with
  | |- context [HighlightNode (Some v) ?x] =>
      destruct (HighlightNode_exact x sc v i Hsc Hu) as (sc' & -> & Hg & Hm & Hn)
  end.
  exec. exists sc'. split; [reflexivity|]. auto.
Qed.

(** A handled click that selects, with the wire boxes and the scene it
    leaves. *)
Lemma HandleEntitySelection_select_exact
    (w : World) (s s' : System) (sc : Scene) (v : Visual) (i : Z) :
  HandleEntitySelection w s = Normal tt s' →
  mouseDirty (dataPtr s) = true →
  scene (dataPtr s) = Some sc →
  VisualAt sc (camera (dataPtr s)) (events.Pos (mouseEvent (dataPtr s))) = Some v →
  UserData v "gazebo-entity" = v_int i →
  deselectAll (selectionHelper (dataPtr s)) = false →
  Entity_of_int i ≠ kNullEntity →
  ∃ m1 sc',
    (if clears w (dataPtr s)
     then hides (wireBoxes (dataPtr s)) m1 ∧
          boxes_hidden sc (selectedEntities (dataPtr s)) m1
     else m1 = wireBoxes (dataPtr s)) ∧
    wireBoxes (dataPtr s') =
      <[Entity_of_int i := highlighted_box v (m1 !! Entity_of_int i)]> m1 ∧
    scene (dataPtr s') = Some sc' ∧
    same_graph sc sc' ∧
    materials_step (Materials sc) (Materials sc') ∧
    (m1 !! Entity_of_int i = None →
     is_Some (Materials sc' !! "highlight_material"%string)) ∧
    selectedEntities (dataPtr s') =
      (if clears w (dataPtr s) then [] else selectedEntities (dataPtr s))
        ++ [Id v].
Proof.
  intros HH Hd Hsc Hv Hu Hda Hn. revert HH.
  unfold HandleEntitySelection. exec. rewrite Hd. exec_bool. exec.
  rewrite Hsc. exec. rewrite Hv. exec. rewrite Hu. exec. rewrite Hda.
  destruct (Z.eqb_spec (Entity_of_int i) kNullEntity) as [|_]; [done|].
  exec_bool. exec. unfold UpdateSelectedEntity. exec.
  change ((negb (ControlHeld w)
             && negb (bool_decide (selectedEntities (dataPtr s) = [])))
          || transformControlActive (dataPtr s))
    with (clears w (dataPtr s)).
  destruct (clears w (dataPtr s)) eqn:Hc; exec.
  - run_DeselectAllEntities sc Hsc Ht m' Hm' Hh; exec; [|done].
    match goal with
    | |- context [SetSelectedEntity (Some v) ?x] =>
        destruct (SetSelectedEntity_exact x sc v i Hsc Hu Hn)
          as (sc' & -> & Hg & Hm & Hnew)
    end.
    exec. rewrite orb_true_r. exec. intros [= <-]. exec. exec_in Hnew.
    exists m', sc'. split; [done|]. repeat (split; [done|]). done.
  - match goal with
    | |- context [SetSelectedEntity (Some v) ?x] =>
        destruct (SetSelectedEntity_exact x sc v i Hsc Hu Hn)
          as (sc' & -> & Hg & Hm & Hnew)
    end.
    exec. rewrite orb_false_r. exec_in Hnew.
    destruct (sendEvent (selectionHelper (dataPtr s))); exec;
      intros [= <-]; exec; exists (wireBoxes (dataPtr s)), sc';
      (split; [done|]); repeat (split; [done|]); done.
Qed.

(** ** The scene and the camera over a session *)

Lemma handled_scene (w : World) (s s' : System) (sc : Scene) :
  handled w s s' →
  HandleEntitySelection w s = Normal tt s' →
  scene (dataPtr s) = Some sc →
  ∃ sc', scene (dataPtr s') = Some sc' ∧
         same_graph sc sc' ∧
         materials_step (Materials sc) (Materials sc') ∧
         camera (dataPtr s') = camera (dataPtr s).
Proof.
  intros H HH Hs.
  destruct H as [Hd -> | sc0 m' Hd Hsc Hv Hm Hb Hp He
                | sc0 v i m' Hd Hsc Hv Hu Hda' Hm Hb Hp He
                | sc0 v i Hd Hsc Hv Hu Hda' Hn Hp He
                | sc0 v i m1 wbx sc' Hd Hsc Hv Hu Hda' Hn Hm Hg Hp He].
  - exists sc. auto using same_graph_refl, materials_step_refl.
  - exists sc. rewrite Hp. exec.
    auto using same_graph_refl, materials_step_refl.
  - exists sc. rewrite Hp. exec.
    auto using same_graph_refl, materials_step_refl.
  - exists sc. rewrite Hp. exec.
    auto using same_graph_refl, materials_step_refl.
  - assert (sc0 = sc) as -> by congruence.
    destruct (HandleEntitySelection_select_exact w s s' sc v i
                HH Hd Hsc Hv Hu Hda' Hn)
      as (m2 & sc2 & _ & _ & Hs2 & Hg2 & Hm2 & _).
    exists sc2. repeat (split; [done|]). rewrite Hp. done.
Qed.

Lemma eventFilter_scene (w : World) (e : events.QEvent) (s s' : System)
    (b : bool) (sc : Scene) :
  eventFilter w e s = Normal b s' →
  scene (dataPtr s) = Some sc →
  ∃ sc', scene (dataPtr s') = Some sc' ∧
         same_graph sc sc' ∧
         materials_step (Materials sc) (Materials sc') ∧
         camera (dataPtr s') = camera (dataPtr s).
Proof.
  intros He Hs.
  apply eventFilter_cases in He
    as [(_ & _ & _ & Hsc & _ & Hc & _) | (_ & s1 & Hi & Hh & _ & HH)].
  - exists sc. rewrite Hsc, Hc.
    auto using same_graph_refl, materials_step_refl.
  - destruct Hi as (_ & _ & _ & _ & _ & _ & Hi). rewrite Hs in Hi. subst s1.
    by eapply handled_scene.
Qed.

Lemma eventFilter_engine_unused (w w' : World) (e : events.QEvent)
    (s : System) :
  scene (dataPtr s) ≠ None →
  keyboardModifiers w = keyboardModifiers w' →
  eventFilter w' e s = eventFilter w e s.
Proof.
  intros Hs Hk. destruct w as [engine k], w' as [engine' k'].
  simpl in Hk. subst k'. destruct e; try reflexivity.
  unfold eventFilter, Initialize. exec.
  destruct (scene (dataPtr s)); [reflexivity|done].
Qed.

(** X1: once the plugin has a scene it never asks the render engine for
    one again: a session gives the same result whatever scenes the engine
    offers while it runs, the scene pointer stays set, and the camera
    pointer keeps its value, so that a camera that was missing stays
    missing. *)
Theorem scene_and_camera_are_set_once
    (evs evs' : list (World * events.QEvent)) (s : System) :
  scene (dataPtr s) ≠ None →
  same_events evs evs' →
  run evs' s = run evs s ∧
  ∀ s', run evs s = Normal tt s' →
        scene (dataPtr s') ≠ None ∧
        camera (dataPtr s') = camera (dataPtr s).
Proof.
  intros Hs Hevs. revert s Hs.
  induction Hevs as [|[w e] [w' e'] evs evs' [He Hk] _ IH]; intros s Hs.
  { split; [done|]. by intros s' [= <-]. }
  simpl in He, Hk. subst e'. simpl.
  rewrite (eventFilter_engine_unused w w' e s Hs Hk).
  destruct (eventFilter w e s) as [b s1|f] eqn:HF; [|done].
  destruct (scene (dataPtr s)) as [sc|] eqn:Hsc; [|done].
  destruct (eventFilter_scene _ _ _ _ _ _ HF Hsc) as (sc1 & Hs1 & _ & _ & Hc1).
  assert (Hs1' : scene (dataPtr s1) ≠ None) by by rewrite Hs1.
  destruct (IH s1 Hs1') as (Hrun & Hkeep). split; [done|].
  intros s' Hs'. destruct (Hkeep s' Hs') as (? & ->). done.
Qed.

Lemma errors_logged_app l l' :
  errors_logged (l ++ l') = (errors_logged l + errors_logged l')%nat.
Proof. unfold errors_logged. by rewrite List.filter_app, length_app. Qed.

Lemma handled_errors_logged w s s' :
  handled w s s' → errors_logged (effects s') = errors_logged (effects s).
Proof.
  intros [Hd -> | sc m' Hd Hsc Hv Hm Hb Hp He
         | sc v i m' Hd Hsc Hv Hu Hda' Hm Hb Hp He
         | sc v i Hd Hsc Hv Hu Hda' Hn Hp He
         | sc v i m1 wbx sc' Hd Hsc Hv Hu Hda' Hn Hm Hg Hp He];
    [done|..]; rewrite He, !errors_logged_app.
  - change (errors_logged [_; _]) with 0%nat. lia.
  - change (errors_logged [_; _]) with 0%nat. lia.
  - change (errors_logged [_]) with 0%nat. lia.
  - destruct (clears w (dataPtr s)),
      (sendEvent (selectionHelper (dataPtr s))); cbn; lia.
Qed.

(** X2: the error "Camera is not available" is logged at most once in a
    session, and exactly when the plugin holds a scene without a camera;
    while the plugin has no scene it has no camera either. *)
Theorem camera_error_is_logged_once (s : System) :
  reachable s →
  errors_logged (effects s) = camera_errors_due s ∧
  (scene (dataPtr s) = None → camera (dataPtr s) = None).
Proof.
  apply (reachable_invariant
           (λ s, errors_logged (effects s) = camera_errors_due s ∧
                 (scene (dataPtr s) = None → camera (dataPtr s) = None)));
    [done|].
  intros w e s0 b s' _ _ [Hl Hn] He. unfold camera_errors_due in *.
  apply eventFilter_cases in He
    as [(_ & _ & _ & Hsc & _ & Hc & Hef) | (_ & s1 & Hi & Hh & HI & HH)].
  { by rewrite Hsc, Hc, Hef. }
  apply Initialize_in_use in HI as (Hs1 & Hc1 & He1).
  assert (H1 : errors_logged (effects s1) =
               match scene (dataPtr s1), camera (dataPtr s1) with
               | Some _, None => 1%nat
               | _, _ => 0%nat
               end ∧
               (scene (dataPtr s1) = None → camera (dataPtr s1) = None)).
  { rewrite Hs1, Hc1, He1, errors_logged_app, Hl.
    unfold scene_in_use, camera_in_use, camera_missing.
    destruct (scene (dataPtr s0)) as [sc0|] eqn:Hs0.
    - split; [|done]. change (errors_logged []) with 0%nat. lia.
    - specialize (Hn eq_refl).
      destruct (sceneFromFirstRenderEngine w) as [sc|]; [|by rewrite Hn].
      destruct (as_Camera (SensorByName sc "Scene3DCamera")); by split. }
  clear Hl Hn Hs1 Hc1 He1. destruct H1 as [Hl Hn].
  rewrite (handled_errors_logged _ _ _ Hh), Hl.
  destruct (scene (dataPtr s1)) as [sc1|] eqn:Hs1.
  - destruct (handled_scene _ _ _ sc1 Hh HH Hs1) as (sc2 & -> & _ & _ & ->).
    by split.
  - destruct Hh as [Hd -> | ? ? ? Hx | ? ? ? ? ? Hx | ? ? ? ? Hx
                   | ? ? ? ? ? ? ? Hx]; try congruence.
    rewrite Hs1. auto.
Qed.

(** ** When an event does not return *)

Lemma eventFilter_not_Render_returns (w : World) (e : events.QEvent)
    (s : System) :
  is_Render e = false → ∃ s', eventFilter w e s = Normal false s'.
Proof. unfold eventFilter. destruct e; try done; exec; by eexists. Qed.

(** X10: in a state the plugin can reach, and when the scene at hand
    comes with its camera, an event makes the plugin fail exactly when it
    is a render pass with a click pending and either no scene is at hand
    (the null scene pointer is dereferenced) or the ray hits a visual
    without an [int] under ["gazebo-entity"]
    ([std::bad_variant_access]).  Every other event returns.  A pass
    that hands the null camera to [VisualAt] is left aside: what the
    rendering library does with it is not the plugin's to say. *)
Theorem eventFilter_faults_exactly_when
    (w : World) (e : events.QEvent) (s : System) (f : Fault) :
  reachable s →
  (scene_in_use w s ≠ None → camera_in_use w s ≠ None) →
  eventFilter w e s = Faulted f ↔
  e = events.Render ∧
  mouseDirty (dataPtr s) = true ∧
  match scene_in_use w s with
  | None => f = NullDereference
  | Some sc =>
      f = bad_variant_access ∧
      visual_typed
        (VisualAt sc (camera_in_use w s)
           (events.Pos (mouseEvent (dataPtr s)))) = false
  end.
Proof.
  intros Hr _. destruct (is_Render e) eqn:HR.
  2:{ destruct (eventFilter_not_Render_returns w e s HR) as [s' ->].
      split; [done|]. intros (-> & _). done. }
  destruct e; try done. clear HR. rewrite eventFilter_Render.
  destruct (Initialize_spec w s) as (s1 & HI & Hi). rewrite HI.
  apply Initialize_in_use in HI as (Hs1 & Hc1 & _).
  destruct Hi as (_ & Hl & _ & Hme & Hmd & _ & Hsc).
  pose proof (reachable_state_ok s Hr) as (_ & Hok).
  assert (Hty : ∀ sc, scene (dataPtr s1) = Some sc →
                      selection_typed sc (selectedEntities (dataPtr s1)) = true).
  { intros sc Hsc1. destruct (scene (dataPtr s)) as [sc0|] eqn:Hs0.
    - subst s1. by apply reachable_typed.
    - destruct Hok as (Hnil & _). by rewrite Hl, Hnil. }
  pose proof (HandleEntitySelection_spec w s1) as HH.
  rewrite <- Hs1, <- Hc1, <- Hme, <- Hmd.
  destruct (HandleEntitySelection w s1) as [[] s'|f'].
  - split; [done|]. intros (_ & Hd & Hf). exfalso.
    destruct HH as [Hd' _ | sc m' _ Hsc1 Hv1
                   | sc v i m' _ Hsc1 Hv1 Hu1
                   | sc v i _ Hsc1 Hv1 Hu1
                   | sc v i m1 wbx sc' _ Hsc1 Hv1 Hu1];
      [congruence|..]; rewrite Hsc1, Hv1 in Hf; destruct Hf as (_ & Hf);
      simpl in Hf; [done|..]; by rewrite Hu1 in Hf.
  - destruct HH as (Hd & HH). split.
    + intros [= <-]. split; [done|]. split; [done|].
      destruct (scene (dataPtr s1)) as [sc|] eqn:Hsc1; [|done].
      destruct HH as (-> & [HH | HH]); [|done].
      by rewrite (Hty sc eq_refl) in HH.
    + intros (_ & _ & Hf). f_equal.
      destruct (scene (dataPtr s1)) as [sc|]; [|congruence].
      destruct HH as (-> & _). by destruct Hf as (-> & _).
Qed.

(** ** What the other widgets are told *)

Lemma last_sent_app l l' :
  last_sent (l ++ l') =
  match last_sent l' with
  | Some e => Some e
  | None => last_sent l
  end.
Proof.
  induction l as [|eff l IH]; simpl.
  - by destruct (last_sent l').
  - rewrite IH. by destruct (last_sent l').
Qed.

Lemma handled_announced w s s' :
  handled w s s' →
  announced_selection (effects s) = selectedEntities (dataPtr s) →
  announced_selection (effects s') = selectedEntities (dataPtr s').
Proof.
  unfold announced_selection.
  intros [Hd -> | sc m' Hd Hsc Hv Hm Hb Hp He
         | sc v i m' Hd Hsc Hv Hu Hda' Hm Hb Hp He
         | sc v i Hd Hsc Hv Hu Hda' Hn Hp He
         | sc v i m1 wbx sc' Hd Hsc Hv Hu Hda' Hn Hm Hg Hp He] Ha;
    [done|..]; rewrite He, Hp, !last_sent_app; exec; try done.
  destruct (clears w (dataPtr s)),
    (sendEvent (selectionHelper (dataPtr s))); done.
Qed.

Lemma handled_selection_events w s s' :
  handled w s s' →
  Forall selection_event (effects s) →
  Forall selection_event (effects s').
Proof.
  intros [Hd -> | sc m' Hd Hsc Hv Hm Hb Hp He
         | sc v i m' Hd Hsc Hv Hu Hda' Hm Hb Hp He
         | sc v i Hd Hsc Hv Hu Hda' Hn Hp He
         | sc v i m1 wbx sc' Hd Hsc Hv Hu Hda' Hn Hm Hg Hp He] Ha;
    [done|..]; rewrite He; rewrite ?Forall_app; repeat split; try done;
    try (by repeat constructor).
  - destruct (clears w (dataPtr s)); by repeat constructor.
  - constructor; [|done]. simpl. intros Hnil.
    by apply app_eq_nil in Hnil as [_ ?].
  - destruct (sendEvent (selectionHelper (dataPtr s)) || clears w (dataPtr s));
      [|done].
    constructor; [|done]. simpl. intros Hnil.
    by apply app_eq_nil in Hnil as [_ ?].
Qed.

(** X8: the selection that was announced last is the selection: in every
    state the plugin can reach, the last event sent to the main window is
    [EntitiesSelected] with the current list, or the list is empty and
    the last event, if any, is [DeselectAllEntities].  All the events sent
    so far, also those that another one followed in the same render pass,
    are [EntitiesSelected] with a list that is not empty or
    [DeselectAllEntities] with [fromUser] set. *)
Theorem last_event_announces_the_selection (s : System) :
  reachable s →
  announced_selection (effects s) = selectedEntities (dataPtr s) ∧
  match last_sent (effects s) with
  | Some (events.EntitiesSelected _ _) => True
  | Some (events.DeselectAllEntities fromUser) => fromUser = true
  | Some _ => False
  | None => True
  end ∧
  Forall selection_event (effects s).
Proof.
  apply (reachable_invariant
           (λ s, announced_selection (effects s) = selectedEntities (dataPtr s) ∧
                 match last_sent (effects s) with
                 | Some (events.EntitiesSelected _ _) => True
                 | Some (events.DeselectAllEntities fromUser) => fromUser = true
                 | Some _ => False
                 | None => True
                 end ∧
                 Forall selection_event (effects s)));
    [by repeat split|].
  intros w e s0 b s' _ _ (Ha & Hk & Hall) He.
  apply eventFilter_cases in He
    as [(_ & _ & Hl & _ & _ & _ & Hef) | (_ & s1 & Hi & Hh & HI & HH)].
  { by rewrite Hef, Hl. }
  apply Initialize_in_use in HI as (_ & _ & He1).
  destruct Hi as (_ & Hl & _).
  assert (H1 : last_sent (effects s1) = last_sent (effects s0)).
  { rewrite He1, last_sent_app. by destruct (camera_missing w s0). }
  assert (Hall1 : Forall selection_event (effects s1)).
  { rewrite He1, Forall_app. split; [done|].
    destruct (camera_missing w s0); by repeat constructor. }
  split; [|split].
  - apply (handled_announced w s1); [done|].
    unfold announced_selection. by rewrite H1, Hl.
  - rewrite <- H1 in Hk. clear -Hh Hk.
    destruct Hh as [Hd -> | sc m' Hd Hsc Hv Hm Hb Hp He
         | sc v i m' Hd Hsc Hv Hu Hda' Hm Hb Hp He
         | sc v i Hd Hsc Hv Hu Hda' Hn Hp He
         | sc v i m1 wbx sc' Hd Hsc Hv Hu Hda' Hn Hm Hg Hp He];
      [done|..]; rewrite He, !last_sent_app; try done.
    destruct (clears w (dataPtr s1)),
      (sendEvent (selectionHelper (dataPtr s1))); done.
  - by apply (handled_selection_events w s1).
Qed.

(** ** Between two render passes *)

(** X11: a session without a render pass always returns and only records:
    the selection, the wire boxes, the scene and the effect trace stay as
    they are; the mouse event is that of the last click, and the flag is
    up if there was a click or it was up before; the transform flag is the
    last mode that was sent.  Earlier clicks are lost. *)
Theorem between_render_passes_the_last_click_counts
    (evs : list (World * events.QEvent)) (s : System) :
  no_Render evs = true →
  ∃ s', run evs s = Normal tt s' ∧
        selectionHelper (dataPtr s') = selectionHelper (dataPtr s) ∧
        selectedEntities (dataPtr s') = selectedEntities (dataPtr s) ∧
        scene (dataPtr s') = scene (dataPtr s) ∧
        wireBoxes (dataPtr s') = wireBoxes (dataPtr s) ∧
        camera (dataPtr s') = camera (dataPtr s) ∧
        effects s' = effects s ∧
        mouseEvent (dataPtr s') =
          default (mouseEvent (dataPtr s)) (last_click evs) ∧
        mouseDirty (dataPtr s') =
          (bool_decide (is_Some (last_click evs)) || mouseDirty (dataPtr s)) ∧
        transformControlActive (dataPtr s') =
          default (transformControlActive (dataPtr s)) (last_mode evs).
Proof.
  revert s. induction evs as [|[w e] evs IH]; intros s Hn; simpl in *.
  - exists s. by repeat split.
  - apply andb_true_iff in Hn as [He Hn]. apply negb_true_iff in He.
    unfold eventFilter. destruct e; try done; exec;
      match goal with
      | |- context [run evs ?x] =>
          destruct (IH x Hn) as (s' & -> & Hh & Hl & Hsc & Hw & Hc & Hef
                                 & Hme & Hmd & Htc)
      end;
      exec_all; exists s'; rewrite Hh, Hl, Hsc, Hw, Hc, Hef, Hme, Hmd, Htc;
      repeat (split; [done|]); destruct (last_click evs), (last_mode evs);
      simpl; try done; split; try done; by rewrite ?orb_true_r.
Qed.

(** ** Null visuals, and highlighting on its own *)

(** X12: on a null visual, [SetSelectedEntity] returns without touching
    anything and [LowlightNode] returns (it at most hides a box filed under
    the null entity), but [HighlightNode] always dereferences a null
    pointer: it guards the read of the user data and then asks the null
    visual for its bounding box. *)
Theorem null_visual_is_guarded_except_in_HighlightNode (s : System) :
  SetSelectedEntity None s = Normal tt s ∧
  (∃ m', LowlightNode None s = Normal tt (with_wireBoxes m' s) ∧
         hides (wireBoxes (dataPtr s)) m' ∧
         ∀ e, e ≠ kNullEntity → m' !! e = wireBoxes (dataPtr s) !! e) ∧
  HighlightNode None s = Faulted NullDereference.
Proof.
  split; [|split].
  - unfold SetSelectedEntity. exec. by rewrite Z.eqb_refl.
  - unfold LowlightNode. exec.
    destruct (wireBoxes (dataPtr s) !! kNullEntity) as [wireBox|] eqn:Hw; exec.
    + eexists. split; [reflexivity|]. split; [by apply hides_insert|].
      intros e He. by rewrite lookup_insert_ne.
    + exists (wireBoxes (dataPtr s)). rewrite with_wireBoxes_same.
      split; [done|]. split; [apply hides_refl|done].
  - unfold HighlightNode. exec.
    destruct (wireBoxes (dataPtr s) !! kNullEntity) as [wireBox|]; exec;
      [done|].
    destruct (scene (dataPtr s)) as [sc|]; exec; [|done].
    by destruct (Materials sc !! "highlight_material"%string).
Qed.

Lemma LowlightNode_exact (s : System) (v : Visual) (i : Z) (wireBox : WireBox) :
  UserData v "gazebo-entity" = v_int i →
  wireBoxes (dataPtr s) !! Entity_of_int i = Some wireBox →
  LowlightNode (Some v) s =
    Normal tt
      (with_wireBoxes
         (<[Entity_of_int i := SetParentVisible false wireBox]>
            (wireBoxes (dataPtr s))) s).
Proof.
  intros Hu Hw. unfold LowlightNode. exec. rewrite Hu. exec. by rewrite Hw.
Qed.

Lemma highlighted_box_Box v found :
  Box (highlighted_box v found) = LocalBoundingBox v.
Proof. destruct found as [[bx [p|]]|]; reflexivity. Qed.

Lemma SetParentVisible_Box b wb : Box (SetParentVisible b wb) = Box wb.
Proof. by destruct wb as [bx [p|]]. Qed.

(** X13: [HighlightNode] on a visual with an [int] entity, with a scene at
    hand, files a wire box with the visual's bounding box under the entity
    (a new one, or the one found there, resized); [LowlightNode] on the
    same visual then hides that box and keeps its size.  Neither touches
    the boxes of other entities, the selection list or the effect trace. *)
Theorem HighlightNode_then_LowlightNode
    (s : System) (sc : Scene) (v : Visual) (i : Z) :
  scene (dataPtr s) = Some sc →
  UserData v "gazebo-entity" = v_int i →
  ∃ s1 s2 wb1 wb2,
    HighlightNode (Some v) s = Normal tt s1 ∧
    LowlightNode (Some v) s1 = Normal tt s2 ∧
    wireBoxes (dataPtr s1) !! Entity_of_int i = Some wb1 ∧
    wireBoxes (dataPtr s2) !! Entity_of_int i = Some wb2 ∧
    Box wb1 = LocalBoundingBox v ∧
    Box wb2 = LocalBoundingBox v ∧
    box_hidden wb2 ∧
    (wireBoxes (dataPtr s) !! Entity_of_int i = None →
     ∃ p, Parent wb1 = Some p ∧ Visible p = true ∧ AttachedTo p = Id v) ∧
    (∀ e, e ≠ Entity_of_int i →
          wireBoxes (dataPtr s2) !! e = wireBoxes (dataPtr s) !! e) ∧
    selectedEntities (dataPtr s2) = selectedEntities (dataPtr s) ∧
    effects s2 = effects s.
Proof.
  intros Hsc Hu.
  destruct (HighlightNode_exact s sc v i Hsc Hu) as (sc' & HH & _).
  eexists. eexists. eexists. eexists. split; [exact HH|].
  split.
  { apply (LowlightNode_exact _ v i); [done|]. exec. apply lookup_insert_eq. }
  exec. rewrite !lookup_insert_eq.
  split; [done|]. split; [done|].
  split; [apply highlighted_box_Box|].
  split; [by rewrite SetParentVisible_Box, highlighted_box_Box|].
  split; [apply SetParentVisible_hidden|].
  split; [intros ->; by eexists|].
  split; [|done]. intros e He. by rewrite !lookup_insert_ne.
Qed.

(** ** The identifiers in the selection *)

Lemma handled_ids_in_range w s s' :
  handled w s s' →
  state_ok s →
  Forall (λ id, 0 ≤ id < 2 ^ 32) (selectedEntities (dataPtr s)) →
  Forall (λ id, 0 ≤ id < 2 ^ 32) (selectedEntities (dataPtr s')).
Proof.
  intros H (_ & Hok) Hall.
  destruct H as [Hd -> | sc m' Hd Hsc Hv Hm Hb Hp He
                | sc v i m' Hd Hsc Hv Hu Hda' Hm Hb Hp He
                | sc v i Hd Hsc Hv Hu Hda' Hn Hp He
                | sc v i m1 wbx sc' Hd Hsc Hv Hu Hda' Hn Hm Hg Hp He];
    try done; rewrite Hp; exec; try done.
  apply Forall_app. split; [by destruct (clears w (dataPtr s))|].
  constructor; [|done]. rewrite Hsc in Hok. destruct Hok as (Hok & _).
  unfold VisualAt in Hv. destruct (RayQuery sc _ _); [|done].
  by eapply Scene_ok_range.
Qed.

Lemma reachable_ids_in_range s :
  reachable s →
  Forall (λ id, 0 ≤ id < 2 ^ 32) (selectedEntities (dataPtr s)).
Proof.
  apply (reachable_invariant
           (λ s, Forall (λ id, 0 ≤ id < 2 ^ 32) (selectedEntities (dataPtr s))));
    [by constructor|].
  intros w e s0 b s' Hw Hok Hall He.
  apply eventFilter_cases in He
    as [(_ & _ & -> & _) | (_ & s1 & Hi & Hh & _)]; [done|].
  apply (handled_ids_in_range w s1); [done| |].
  - by eapply initialized_state_ok.
  - destruct Hi as (_ & -> & _). done.
Qed.

(** X14: in every state the plugin can reach, each identifier in the
    selection is the id of a visual of the scene: it fits [unsigned int],
    [VisualById] finds a visual with that very id, the visual carries an
    [int] entity that is not the null entity, and that entity has a wire
    box.  Without a scene nothing is selected and there is no wire box. *)
Theorem selected_identifiers_resolve (s : System) :
  reachable s →
  match scene (dataPtr s) with
  | Some sc =>
      ∀ id, id ∈ selectedEntities (dataPtr s) →
        0 ≤ id < 2 ^ 32 ∧
        ∃ v i, VisualById sc id = Some v ∧
               Id v = id ∧
               UserData v "gazebo-entity" = v_int i ∧
               Entity_of_int i ≠ kNullEntity ∧
               is_Some (wireBoxes (dataPtr s) !! Entity_of_int i)
  | None =>
      selectedEntities (dataPtr s) = [] ∧ wireBoxes (dataPtr s) = ∅
  end.
Proof.
  intros Hr. pose proof (reachable_state_ok s Hr) as (_ & Hok).
  pose proof (reachable_ids_in_range s Hr) as Hrange.
  destruct (scene (dataPtr s)) as [sc|]; [|done].
  destruct Hok as (_ & Hall). intros id Hin.
  rewrite Forall_forall in Hall, Hrange.
  specialize (Hrange id Hin). split; [done|].
  destruct (Hall id Hin) as (v & i & Hv & Hu & Hn & Hw).
  unfold uint_of_Entity in Hv. rewrite Z.mod_small in Hv by done.
  exists v, i. repeat (split; [done|]). split; [|done].
  by eapply VisualById_Id.
Qed.

(** ** The wire boxes mirror the selection *)

Lemma entity_of_same_graph sc sc' id :
  same_graph sc sc' → entity_of sc' id = entity_of sc id.
Proof. intros Hg. unfold entity_of. by rewrite (same_graph_VisualById _ _ _ Hg). Qed.

Lemma elem_of_selected_same_graph sc sc' (l : list Entity) (e : Z) :
  same_graph sc sc' →
  e ∈ (list_to_set (omap (entity_of sc') l) : gset Z) ↔
  e ∈ (list_to_set (omap (entity_of sc) l) : gset Z).
Proof.
  intros Hg. rewrite !elem_of_list_to_set, !list_elem_of_omap.
  split; intros (id & Hin & He); exists id; split; try done.
  - by rewrite <- (entity_of_same_graph _ _ _ Hg).
  - by rewrite (entity_of_same_graph _ _ _ Hg).
Qed.

(** After [DeselectAllEntities], every box is hidden. *)
Lemma hidden_after_deselect (s : System) (sc : Scene) (m' : gmap Z WireBox) :
  boxes_mirror_selection s →
  scene (dataPtr s) = Some sc →
  hides (wireBoxes (dataPtr s)) m' →
  boxes_hidden sc (selectedEntities (dataPtr s)) m' →
  ∀ e wb, m' !! e = Some wb →
    ∃ p, Parent wb = Some p ∧ InheritScale p = false ∧
         VisMaterial p = "highlight_material"%string ∧ Visible p = false.
Proof.
  intros Hinv Hsc Hm Hb e wb Hwb. destruct (Hm e) as [He | He].
  - rewrite He in Hwb. destruct (Hinv e wb Hwb) as (p & Hp & Hi & Hmat & Hvis).
    exists p. repeat (split; [done|]).
    destruct (Visible p) eqn:Hv; [|done]. exfalso.
    assert (Hsel : e ∈ selected_now s) by by apply Hvis.
    unfold selected_now in Hsel. rewrite Hsc in Hsel.
    apply elem_of_list_to_set, list_elem_of_omap in Hsel as (id & Hin & Hid).
    assert (Hwb' : m' !! e = Some wb) by by rewrite He.
    pose proof (Hb id e wb Hin Hid Hwb') as Hh. unfold box_hidden in Hh.
    rewrite Hp in Hh. congruence.
  - rewrite He in Hwb.
    destruct (wireBoxes (dataPtr s) !! e) as [w0|] eqn:Hw0; [|done].
    injection Hwb as <-.
    destruct (Hinv e w0 Hw0) as (p & Hp & Hi & Hmat & _).
    unfold SetParentVisible. rewrite Hp. by eexists.
Qed.

Lemma handled_boxes_mirror_selection w s s' :
  handled w s s' →
  HandleEntitySelection w s = Normal tt s' →
  state_ok s →
  boxes_mirror_selection s →
  boxes_mirror_selection s'.
Proof.
  intros H HH (Hda & Hok) Hinv.
  destruct H as [Hd -> | sc m' Hd Hsc Hv Hm Hb Hp He
                | sc v i m' Hd Hsc Hv Hu Hda' Hm Hb Hp He
                | sc v i Hd Hsc Hv Hu Hda' Hn Hp He
                | sc v i m1 wbx sc' Hd Hsc Hv Hu Hda' Hn Hm Hg Hp He].
  - done.
  - intros e wb. unfold selected_now. rewrite Hp. exec. rewrite Hsc.
    intros Hwb.
    destruct (hidden_after_deselect s sc m' Hinv Hsc Hm Hb e wb Hwb)
      as (p & Hpp & Hi & Hmat & Hvis).
    exists p. repeat (split; [done|]). rewrite Hvis. simpl.
    split; [done|]. intros Hin. by apply elem_of_empty in Hin.
  - congruence.
  - intros e wb. unfold selected_now. rewrite Hp. exec.
    intros Hwb. destruct (Hinv e wb Hwb) as (p & Hpp & Hi & Hmat & Hvis).
    exists p. repeat (split; [done|]). unfold selected_now in Hvis. done.
  - clear wbx sc' Hm Hg Hp He.
    destruct (HandleEntitySelection_select_exact w s s' sc v i
                HH Hd Hsc Hv Hu Hda' Hn)
      as (m1' & sc' & Hm1 & Hwb' & Hsc' & Hg & _ & _ & Hl').
    rewrite Hsc in Hok. destruct Hok as (Hsok & _).
    assert (HeA : entity_of sc (Id v) = Some (Entity_of_int i)).
    { unfold entity_of. by rewrite (VisualAt_VisualById _ _ _ _ Hsok Hv), Hu. }
    assert (Hpar : ∀ e wb, m1' !! e = Some wb →
              ∃ p, Parent wb = Some p ∧ InheritScale p = false ∧
                   VisMaterial p = "highlight_material"%string ∧
                   (Visible p = true ↔
                    e ∈ (list_to_set
                           (omap (entity_of sc)
                              (if clears w (dataPtr s) then []
                               else selectedEntities (dataPtr s))) : gset Z))).
    { intros e wb Hwb. destruct (clears w (dataPtr s)).
      - destruct Hm1 as (Hm1 & Hb1).
        destruct (hidden_after_deselect s sc m1' Hinv Hsc Hm1 Hb1 e wb Hwb)
          as (p & Hpp & Hi & Hmat & Hvis).
        exists p. repeat (split; [done|]). rewrite Hvis. simpl.
        split; [done|]. intros Hin. by apply elem_of_empty in Hin.
      - subst m1'. destruct (Hinv e wb Hwb) as (p & Hpp & Hi & Hmat & Hvis).
        exists p. repeat (split; [done|]).
        unfold selected_now in Hvis. by rewrite Hsc in Hvis. }
    assert (Hset : ∀ e,
              e ∈ (list_to_set
                     (omap (entity_of sc')
                        ((if clears w (dataPtr s) then []
                          else selectedEntities (dataPtr s)) ++ [Id v]))
                   : gset Z) ↔
              e ∈ (list_to_set
                     (omap (entity_of sc)
                        (if clears w (dataPtr s) then []
                         else selectedEntities (dataPtr s))) : gset Z)
              ∨ e = Entity_of_int i).
    { intros e. rewrite (elem_of_selected_same_graph sc sc' _ e Hg).
      rewrite omap_app, list_to_set_app_L, elem_of_union.
      simpl. rewrite HeA. simpl. set_solver. }
    intros e wb. unfold selected_now. rewrite Hwb', Hsc', Hl'.
    destruct (decide (Entity_of_int i = e)) as [<- | Hne].
    + rewrite lookup_insert_eq. intros [= <-].
      destruct (m1' !! Entity_of_int i) as [w0|] eqn:Hw0; simpl.
      * destruct (Hpar _ _ Hw0) as (p & Hpp & Hi & Hmat & _).
        unfold SetParentVisible, SetBox. cbn [Parent]. rewrite Hpp.
        eexists. split; [reflexivity|]. repeat (split; [done|]).
        cbn [Visible]. rewrite Hset. split; [by right|done].
      * eexists. split; [reflexivity|]. repeat (split; [done|]).
        cbn [Visible]. rewrite Hset. split; [by right|done].
    + rewrite lookup_insert_ne by done. intros Hwb.
      destruct (Hpar _ _ Hwb) as (p & Hpp & Hi & Hmat & Hvis).
      exists p. repeat (split; [done|]). rewrite Hvis, Hset.
      split; [by left|]. by intros [Hin | ->].
Qed.

(** X7: in every state the plugin can reach, each wire box of the map sits
    on a child visual that does not inherit the scale and carries the
    highlight material, and that child is visible exactly when the entity
    of the box is selected. *)
Theorem wire_boxes_mirror_the_selection (s : System) :
  reachable s → boxes_mirror_selection s.
Proof.
  apply (reachable_invariant boxes_mirror_selection).
  { intros e wb Hwb. cbn in Hwb. by rewrite lookup_empty in Hwb. }
  intros w e s0 b s' Hw Hok Hinv He.
  apply eventFilter_cases in He
    as [(_ & _ & Hl & Hsc & Hwb & _) | (_ & s1 & Hi & Hh & _ & HH)].
  { intros e0 wb. unfold selected_now. rewrite Hl, Hsc, Hwb. apply Hinv. }
  apply (handled_boxes_mirror_selection w s1); [done|done| |].
  { by eapply initialized_state_ok. }
  destruct Hok as (_ & Hok). destruct Hi as (_ & Hl & Hwb & _ & _ & _ & Hsc).
  intros e0 wb. rewrite Hwb.
  destruct (scene (dataPtr s0)) as [sc0|] eqn:Hs0.
  - subst s1. apply Hinv.
  - destruct Hok as (_ & ->). by rewrite lookup_empty.
Qed.

(** ** The highlight material *)

(** X15: as soon as one wire box exists, the plugin holds a scene and that
    scene has a material named ["highlight_material"]. *)
Theorem highlight_material_exists_with_boxes (s : System) :
  reachable s →
  wireBoxes (dataPtr s) ≠ ∅ →
  ∃ sc, scene (dataPtr s) = Some sc ∧
        is_Some (Materials sc !! "highlight_material"%string).
Proof.
  apply (reachable_invariant
           (λ s, wireBoxes (dataPtr s) ≠ ∅ →
                 ∃ sc, scene (dataPtr s) = Some sc ∧
                       is_Some (Materials sc !! "highlight_material"%string)));
    [done|].
  intros w e s0 b s' Hw (_ & Hok) Hinv He.
  apply eventFilter_cases in He
    as [(_ & _ & _ & Hsc & Hwb & _) | (_ & s1 & Hi & Hh & _ & HH)].
  { by rewrite Hsc, Hwb. }
  assert (Hinv1 : wireBoxes (dataPtr s1) ≠ ∅ →
            ∃ sc, scene (dataPtr s1) = Some sc ∧
                  is_Some (Materials sc !! "highlight_material"%string)).
  { destruct Hi as (_ & _ & Hwb & _ & _ & _ & Hsc). rewrite Hwb.
    destruct (scene (dataPtr s0)) as [sc0|] eqn:Hs0.
    - subst s1. rewrite Hs0. exact Hinv.
    - destruct Hok as (_ & ->). done. }
  clear Hinv Hok Hi.
  assert (Hdom : ∀ m m' : gmap Z WireBox, hides m m' → m' ≠ ∅ → m ≠ ∅).
  { intros m m' Hm Hne ->. apply Hne. apply dom_empty_iff_L.
    by rewrite (hides_dom _ _ Hm), dom_empty_L. }
  destruct Hh as [Hd -> | sc m' Hd Hsc Hv Hm Hb Hp He
                | sc v i m' Hd Hsc Hv Hu Hda' Hm Hb Hp He
                | sc v i Hd Hsc Hv Hu Hda' Hn Hp He
                | sc v i m1 wbx sc' Hd Hsc Hv Hu Hda' Hn Hm Hg Hp He].
  - done.
  - rewrite Hp. exec. intros Hne. apply Hinv1. by eapply Hdom.
  - rewrite Hp. exec. intros Hne. apply Hinv1. by eapply Hdom.
  - rewrite Hp. exec. done.
  - clear wbx sc' Hm Hg Hp He. intros _.
    destruct (HandleEntitySelection_select_exact w s1 s' sc v i
                HH Hd Hsc Hv Hu Hda' Hn)
      as (m1' & sc' & Hm1 & _ & Hsc' & _ & Hmat & Hnew & _).
    exists sc'. split; [done|].
    destruct (m1' !! Entity_of_int i) as [w0|] eqn:Hw0; [|by apply Hnew].
    assert (Hne : wireBoxes (dataPtr s1) ≠ ∅).
    { destruct (clears w (dataPtr s1)).
      - destruct Hm1 as (Hm1 & _). apply (Hdom _ m1' Hm1).
        intros ->. by rewrite lookup_empty in Hw0.
      - subst m1'. intros Hem. rewrite Hem in Hw0.
        by rewrite lookup_empty in Hw0. }
    destruct (Hinv1 Hne) as (sc1 & Hsc1 & Hhas).
    assert (sc1 = sc) as -> by congruence.
    destruct Hmat as [-> | (_ & ->)]; [done|].
    destruct (Materials sc !! "highlight_material"%string); [|by destruct Hhas].
    by rewrite lookup_insert_eq.
Qed.

(** ** Wire boxes are kept where they are *)

Lemma same_attachment_refl w : same_attachment w w.
Proof. unfold same_attachment. destruct (Parent w); [by eexists|done]. Qed.

Lemma same_attachment_trans w1 w2 w3 :
  same_attachment w1 w2 → same_attachment w2 w3 → same_attachment w1 w3.
Proof.
  unfold same_attachment. destruct (Parent w1) as [p1|].
  - intros (p2 & -> & ? & ? & ?) (p3 & -> & ? & ? & ?).
    exists p3. repeat split; congruence.
  - by intros ->.
Qed.

Lemma same_attachment_SetParentVisible b w :
  same_attachment w (SetParentVisible b w).
Proof.
  unfold same_attachment, SetParentVisible.
  destruct (Parent w) as [p|] eqn:Hp; [by eexists|done].
Qed.

Lemma same_attachment_highlighted v w :
  same_attachment w (highlighted_box v (Some w)).
Proof.
  unfold same_attachment, highlighted_box, SetParentVisible, SetBox.
  cbn [Parent]. destruct (Parent w) as [p|] eqn:Hp; [by eexists|done].
Qed.

Lemma boxes_kept_refl m : boxes_kept m m.
Proof. intros e w Hw. exists w. split; [done|apply same_attachment_refl]. Qed.

Lemma boxes_kept_trans m1 m2 m3 :
  boxes_kept m1 m2 → boxes_kept m2 m3 → boxes_kept m1 m3.
Proof.
  intros H12 H23 e w1 Hw1. destruct (H12 e w1 Hw1) as (w2 & Hw2 & Ha).
  destruct (H23 e w2 Hw2) as (w3 & Hw3 & Hb).
  exists w3. split; [done|]. by eapply same_attachment_trans.
Qed.

Lemma hides_boxes_kept m m' : hides m m' → boxes_kept m m'.
Proof.
  intros H e w Hw. destruct (H e) as [He | He]; rewrite Hw in He.
  - exists w. split; [done|apply same_attachment_refl].
  - eexists. split; [exact He|apply same_attachment_SetParentVisible].
Qed.

Lemma handled_boxes_kept w s s' :
  handled w s s' →
  HandleEntitySelection w s = Normal tt s' →
  boxes_kept (wireBoxes (dataPtr s)) (wireBoxes (dataPtr s')).
Proof.
  intros H HH.
  destruct H as [Hd -> | sc m' Hd Hsc Hv Hm Hb Hp He
                | sc v i m' Hd Hsc Hv Hu Hda' Hm Hb Hp He
                | sc v i Hd Hsc Hv Hu Hda' Hn Hp He
                | sc v i m1 wbx sc' Hd Hsc Hv Hu Hda' Hn Hm Hg Hp He].
  - apply boxes_kept_refl.
  - rewrite Hp. exec. by apply hides_boxes_kept.
  - rewrite Hp. exec. by apply hides_boxes_kept.
  - rewrite Hp. exec. apply boxes_kept_refl.
  - clear wbx sc' Hm Hg Hp He.
    destruct (HandleEntitySelection_select_exact w s s' sc v i
                HH Hd Hsc Hv Hu Hda' Hn)
      as (m1' & sc' & Hm1 & -> & _).
    assert (H1 : boxes_kept (wireBoxes (dataPtr s)) m1').
    { destruct (clears w (dataPtr s)).
      - destruct Hm1 as (Hm1 & _). by apply hides_boxes_kept.
      - subst m1'. apply boxes_kept_refl. }
    intros e w0 Hw0. destruct (H1 e w0 Hw0) as (w1 & Hw1 & Ha).
    destruct (decide (Entity_of_int i = e)) as [<- | Hne].
    + rewrite lookup_insert_eq, Hw1. eexists. split; [reflexivity|].
      eapply same_attachment_trans; [exact Ha|].
      apply same_attachment_highlighted.
    + rewrite lookup_insert_ne by done. by exists w1.
Qed.

(** X16: a wire box is never removed and never moved: over any session,
    a box that is in the map stays in the map under the same entity, on
    the same child visual of the visual it was created for, with the same
    material and scale setting; only its size and its visibility
    change, also when the entity is later selected through another
    visual. *)
Theorem wire_boxes_stay_attached
    (evs : list (World * events.QEvent)) (s s' : System) :
  run evs s = Normal tt s' →
  boxes_kept (wireBoxes (dataPtr s)) (wireBoxes (dataPtr s')).
Proof.
  revert s. induction evs as [|[w e] evs IH]; intros s Hrun; simpl in Hrun.
  - injection Hrun as <-. apply boxes_kept_refl.
  - destruct (eventFilter w e s) as [b s1|f] eqn:He; [|done].
    eapply boxes_kept_trans; [|by apply IH].
    apply eventFilter_cases in He
      as [(_ & _ & _ & _ & -> & _) | (_ & s0 & Hi & Hh & _ & HH)].
    + apply boxes_kept_refl.
    + destruct Hi as (_ & _ & <- & _). by apply (handled_boxes_kept w).
Qed.

(** ** Deselecting twice *)

(** X17: [DeselectAllEntities] does not look whether anything is selected:
    called again right after it returned, with a scene, it leaves the
    plugin's data as they are and sends the deselect-all event once
    more. *)
Theorem DeselectAllEntities_twice (s s1 : System) (sc : Scene) :
  scene (dataPtr s) = Some sc →
  DeselectAllEntities s = Normal tt s1 →
  DeselectAllEntities s1 =
    Normal tt
      {| dataPtr := dataPtr s1;
         effects := effects s1
                      ++ [App_sendEvent (events.DeselectAllEntities true)] |}.
Proof.
  intros Hsc H1. pose proof (DeselectAllEntities_spec s sc Hsc) as HD.
  rewrite H1 in HD. destruct HD as (_ & m' & _ & _ & ->).
  unfold DeselectAllEntities. exec. rewrite Hsc. exec.
  by destruct (dataPtr s).
Qed.

End SelectEntities.

(** ** The plugin at work on the two-box scene

    The null entity is 0 here, as in the host. *)

Example Entity_of_int_wraps : Entity_of_int (-1) = 18446744073709551615.
Proof. reflexivity. Qed.

Example uint_of_Entity_truncates : uint_of_Entity (2 ^ 32 + 7) = 7.
Proof. reflexivity. Qed.

Example click_then_click_elsewhere :
  selectedEntities (dataPtr (final_state 0 click_visA)) = [7] ∧
  selectedEntities
    (dataPtr (final_state 0 (click_visA ++ [(plain, click_at 2);
                                            (plain, events.Render)]))) = [8] ∧
  selectedEntities
    (dataPtr (final_state 0 (click_visA_then_nothing
                               ++ [(plain, events.Render)]))) = [].
Proof. repeat split; vm_compute; reflexivity. Qed.

(** A click on a visual without ["gazebo-entity"] user data ends in the
    uncaught [std::bad_variant_access] of [std::get<int>]. *)
Example click_on_grid_throws :
  run 0 click_grid (initial 0) = Faulted bad_variant_access.
Proof. vm_compute. reflexivity. Qed.

(** Without a scene, deselecting leaves the selection [7; 8] in place. *)
Lemma DeselectAllEntities_null_scene_witness :
  scene (dataPtr (selected_without_scene 0)) = None ∧
  DeselectAllEntities 0 (selected_without_scene 0)
  = Normal tt (selected_without_scene 0).
Proof.
  split; [reflexivity|].
  apply (proj1 (DeselectAllEntities_null_scene 0 (selected_without_scene 0)
                  eq_refl)).
Defined.

(** A session that returns ends in a reachable state. *)
Lemma reachable_final_state evs :
  Worlds_ok evs = true →
  run 0 evs (initial 0) = Normal tt (final_state 0 evs) →
  reachable 0 (final_state 0 evs).
Proof. intros Hw Hrun. by exists evs. Qed.

(** With [visA] selected, deselecting empties the list. *)
Lemma DeselectAllEntities_empties_witness :
  selectedEntities (dataPtr (final_state 0 click_visA)) = [7] ∧
  ∃ s', DeselectAllEntities 0 (final_state 0 click_visA) = Normal tt s' ∧
        selectedEntities (dataPtr s') = [].
Proof.
  split; [vm_compute; reflexivity|].
  destruct (DeselectAllEntities_empties 0 (final_state 0 click_visA)
              two_boxes_highlighted) as (Hpost & Hreturns & _).
  { vm_compute. reflexivity. }
  destruct Hreturns as [s' Hs'].
  { apply reachable_final_state; vm_compute; reflexivity. }
  exists s'. split; [exact Hs'|]. apply (Hpost s' Hs').
Defined.

(** [visA] is selected, Control is held and a deselect-all request is
    pending: a click on empty space still empties the selection. *)
Lemma click_on_nothing_deselects_all_witness :
  selectedEntities (dataPtr (final_state 0 click_visA_then_nothing)) = [7] ∧
  ∃ s',
    HandleEntitySelection 0 with_control
      (with_selectionHelper deselect_request
         (final_state 0 click_visA_then_nothing))
    = Normal tt s' ∧
    selectedEntities (dataPtr s') = [] ∧
    boxes_hidden two_boxes_highlighted
      (selectedEntities (dataPtr (final_state 0 click_visA_then_nothing)))
      (wireBoxes (dataPtr s')) ∧
    effects s' =
      effects (final_state 0 click_visA_then_nothing)
        ++ [VisualAt_effect (dataPtr (final_state 0 click_visA_then_nothing));
            App_sendEvent (events.DeselectAllEntities true)].
Proof.
  split; [vm_compute; reflexivity|].
  apply (click_on_nothing_deselects_all 0 with_control deselect_request
           (final_state 0 click_visA_then_nothing) two_boxes_highlighted).
  - apply reachable_final_state; vm_compute; reflexivity.
  - vm_compute. reflexivity.
  - vm_compute. reflexivity.
  - vm_compute. reflexivity.
Defined.

(** The transform control is active and [visA] is selected: a
    Control-click on [visB] leaves [visB] alone in the selection. *)
Lemma transform_control_suppresses_multi_select_witness :
  selectedEntities (dataPtr (final_state 0 transform_then_clicks)) = [7] ∧
  ∃ s',
    HandleEntitySelection 0 with_control
      (final_state 0 transform_then_clicks)
    = Normal tt s' ∧
    selectedEntities (dataPtr s') = [Id visB] ∧
    effects s' =
      effects (final_state 0 transform_then_clicks) ++
      [VisualAt_effect (dataPtr (final_state 0 transform_then_clicks));
       std_cerr (cerr_line true);
       App_sendEvent (events.DeselectAllEntities true);
       App_sendEvent (events.EntitiesSelected [Id visB] true);
       App_sendEvent (events.EntitiesSelected [Id visB] false)].
Proof.
  split; [vm_compute; reflexivity|].
  apply (transform_control_suppresses_multi_select 0 with_control
           (final_state 0 transform_then_clicks) two_boxes_highlighted visB 4).
  - apply reachable_final_state; vm_compute; reflexivity.
  - vm_compute. reflexivity.
  - vm_compute. reflexivity.
  - vm_compute. reflexivity.
  - vm_compute. reflexivity.
  - vm_compute. reflexivity.
  - vm_compute. discriminate.
Defined.

(** C1 fails as stated: Control-clicking the same visual twice leaves its
    identifier twice in the selection list. *)
Lemma ctrl_click_twice_duplicates :
  Worlds_ok ctrl_click_twice = true ∧
  ∃ s, run 0 ctrl_click_twice (initial 0) = Normal tt s ∧
       selectedEntities (dataPtr s) = [7; 7] ∧
       ¬ NoDup (selectedEntities (dataPtr s)).
Proof.
  split; [reflexivity|]. exists (final_state 0 ctrl_click_twice).
  split; [vm_compute; reflexivity|].
  assert (H : selectedEntities (dataPtr (final_state 0 ctrl_click_twice))
              = [7; 7]) by (vm_compute; reflexivity).
  split; [exact H|]. rewrite H. intros Hnd.
  apply NoDup_cons in Hnd as [Hnd _]. apply Hnd. by left.
Qed.

(** Control-clicking two different visuals selects both, once each. *)
Lemma selection_NoDup_without_reselection_witness :
  no_reselection 0 ctrl_click_both (initial 0) = true ∧
  selectedEntities (dataPtr (final_state 0 ctrl_click_both)) = [7; 8] ∧
  NoDup (selectedEntities (dataPtr (final_state 0 ctrl_click_both))).
Proof.
  split; [vm_compute; reflexivity|]. split; [vm_compute; reflexivity|].
  apply (selection_NoDup_without_reselection 0 ctrl_click_both
           (final_state 0 ctrl_click_both)).
  - vm_compute. reflexivity.
  - vm_compute. reflexivity.
Defined.

(** After both visuals were selected, the wire boxes are those of the
    entities 3 and 4. *)
Lemma wire_box_iff_ever_selected_witness :
  Worlds_ok ctrl_click_both = true ∧
  run 0 ctrl_click_both (initial 0)
  = Normal tt (final_state 0 ctrl_click_both) ∧
  ∀ e, e ∈ dom (wireBoxes (dataPtr (final_state 0 ctrl_click_both)))
       ↔ e ∈ ever_selected 0 ctrl_click_both (initial 0).
Proof.
  split; [reflexivity|]. split; [vm_compute; reflexivity|].
  apply (proj1 (wire_box_iff_ever_selected 0 ctrl_click_both
                  (final_state 0 ctrl_click_both) eq_refl
                  ltac:(vm_compute; reflexivity))).
Defined.

(** C6, at the failing input: a click on [visA], whose user data gives the
    simulation entity 3, puts the rendering id 7 of the visual in the
    selection list and in the event that is sent, while the wire box is
    filed under the entity 3. *)
Theorem selection_list_holds_visual_id :
  VisualAt two_boxes (Some user_camera) (1, 0) = Some visA ∧
  entityId_of 0 (Some visA) (initial 0) = Normal 3 (initial 0) ∧
  Id visA = 7 ∧
  run 0 click_visA (initial 0) = Normal tt (final_state 0 click_visA) ∧
  selectedEntities (dataPtr (final_state 0 click_visA)) = [7] ∧
  effects (final_state 0 click_visA) =
    [VisualAtQuery (Some user_camera) (1, 0);
     std_cerr (cerr_line false);
     App_sendEvent (events.EntitiesSelected [7] true)] ∧
  dom (wireBoxes (dataPtr (final_state 0 click_visA))) = {[ 3 ]}.
Proof.
  repeat split; vm_compute; reflexivity.
Qed.

(** C5, at the failing input: the transform control is active and [visA]
    is selected.  A Control-click on [visB], whose user data gives the
    simulation entity 4, is handled by deselecting all first and leaves a
    single entry in the selection list; the entry is the rendering id 8
    of the visual and not the clicked entity 4, under which the wire box
    is filed. *)
Theorem transform_control_click_holds_visual_id :
  run 0 transform_then_clicks (initial 0)
  = Normal tt (final_state 0 transform_then_clicks) ∧
  transformControlActive (dataPtr (final_state 0 transform_then_clicks))
  = true ∧
  selectedEntities (dataPtr (final_state 0 transform_then_clicks)) = [7] ∧
  VisualAt two_boxes (Some user_camera) (2, 0) = Some visB ∧
  entityId_of 0 (Some visB) (initial 0) = Normal 4 (initial 0) ∧
  Id visB = 8 ∧
  ∃ s',
    eventFilter 0 with_control events.Render
      (final_state 0 transform_then_clicks)
    = Normal false s' ∧
    selectedEntities (dataPtr s') = [8] ∧
    selectedEntities (dataPtr s') ≠ [4] ∧
    effects s' =
      effects (final_state 0 transform_then_clicks) ++
      [VisualAtQuery (Some user_camera) (2, 0);
       std_cerr (cerr_line true);
       App_sendEvent (events.DeselectAllEntities true);
       App_sendEvent (events.EntitiesSelected [8] true);
       App_sendEvent (events.EntitiesSelected [8] false)] ∧
    dom (wireBoxes (dataPtr s')) = {[ 3; 4 ]}.
Proof.
  repeat (split; [vm_compute; reflexivity|]).
  exists (final_state 0 (transform_then_clicks
                           ++ [(with_control, events.Render)])).
  repeat (split; [vm_compute; reflexivity|]).
  split; [vm_compute; discriminate|].
  split; vm_compute; reflexivity.
Qed.

(** ** Further runs on the small scenes *)

(** The scene was found without its camera.  The click on [visA] and the
    pass that handles it end in the same state when the engine offers
    [two_boxes], which has a camera, by then ([click_visA]); the camera is
    still missing. *)
Lemma scene_and_camera_are_set_once_witness :
  camera (dataPtr (final_state 0 render_without_camera)) = None ∧
  sceneFromFirstRenderEngine plain = Some two_boxes ∧
  as_Camera (SensorByName two_boxes "Scene3DCamera") = Some user_camera ∧
  run 0 click_visA (final_state 0 render_without_camera)
  = run 0 then_click_visA (final_state 0 render_without_camera) ∧
  camera (dataPtr (final_state 0 (render_without_camera ++ then_click_visA)))
  = camera (dataPtr (final_state 0 render_without_camera)).
Proof.
  split; [vm_compute; reflexivity|]. split; [reflexivity|].
  split; [vm_compute; reflexivity|].
  destruct (scene_and_camera_are_set_once 0 then_click_visA
              click_visA
              (final_state 0 render_without_camera)) as (Hrun & Hkeep).
  - vm_compute. discriminate.
  - repeat constructor.
  - split; [exact Hrun|].
    apply (Hkeep (final_state 0 (render_without_camera ++ then_click_visA))).
    vm_compute. reflexivity.
Defined.

(** The missing camera was reported once, also after more events. *)
Lemma camera_error_is_logged_once_witness :
  errors_logged
    (effects (final_state 0 (render_without_camera ++ then_click_visA)))
  = 1%nat.
Proof.
  rewrite (proj1 (camera_error_is_logged_once 0
                    (final_state 0 (render_without_camera ++ then_click_visA))
                    (reachable_final_state (render_without_camera ++ then_click_visA) eq_refl
                       ltac:(vm_compute; reflexivity)))).
  vm_compute. reflexivity.
Defined.

(** With [visA] selected, a Control-click on [visB] gives [7; 8]. *)
Lemma control_click_appends_witness :
  ∃ s', HandleEntitySelection 0 with_control
          (final_state 0 ctrl_click_visA_then_visB) = Normal tt s' ∧
        selectedEntities (dataPtr s') = [7; 8].
Proof.
  destruct (control_click_appends 0 with_control
              (final_state 0 ctrl_click_visA_then_visB)
              two_boxes_highlighted visB 4) as (s' & HH & Hl & _).
  - apply reachable_final_state; vm_compute; reflexivity.
  - vm_compute. reflexivity.
  - vm_compute. reflexivity.
  - vm_compute. reflexivity.
  - vm_compute. reflexivity.
  - vm_compute. reflexivity.
  - vm_compute. reflexivity.
  - vm_compute. discriminate.
  - exists s'. split; [exact HH|]. rewrite Hl. vm_compute. reflexivity.
Defined.

(** With [visA] selected, a click on [visB] without Control gives [8]. *)
Lemma plain_click_selects_only_the_clicked_witness :
  selectedEntities (dataPtr (final_state 0 click_visA_then_visB)) = [7] ∧
  ∃ s', HandleEntitySelection 0 plain
          (final_state 0 click_visA_then_visB) = Normal tt s' ∧
        selectedEntities (dataPtr s') = [8].
Proof.
  split; [vm_compute; reflexivity|].
  destruct (plain_click_selects_only_the_clicked 0 plain
              (final_state 0 click_visA_then_visB)
              two_boxes_highlighted visB 4) as (s' & HH & Hl & _).
  - apply reachable_final_state; vm_compute; reflexivity.
  - vm_compute. reflexivity.
  - vm_compute. reflexivity.
  - vm_compute. reflexivity.
  - vm_compute. reflexivity.
  - vm_compute. reflexivity.
  - vm_compute. discriminate.
  - exists s'. split; [exact HH|]. exact Hl.
Defined.

(** The click on the grid, which has no user data, throws. *)
Lemma click_on_untyped_visual_throws_witness :
  HandleEntitySelection 0 grid_world (final_state 0 click_grid_pending)
  = Faulted bad_variant_access.
Proof.
  apply (click_on_untyped_visual_throws 0 grid_world
           (final_state 0 click_grid_pending) boxes_and_grid visGrid).
  - vm_compute. reflexivity.
  - vm_compute. reflexivity.
  - vm_compute. reflexivity.
  - vm_compute. reflexivity.
Defined.

(** With [visA] selected, the click on the visual of the null entity
    leaves [7] selected. *)
Lemma click_on_null_entity_is_ignored_witness :
  ∃ s', HandleEntitySelection 0 origin_world
          (final_state 0 click_origin_pending) = Normal tt s' ∧
        selectedEntities (dataPtr s') = [7] ∧
        effects s' =
          effects (final_state 0 click_origin_pending)
            ++ [VisualAtQuery (Some user_camera) (4, 0)].
Proof.
  destruct (click_on_null_entity_is_ignored 0 origin_world
              (final_state 0 click_origin_pending)
              boxes_and_origin_highlighted visOrigin 0)
    as (s' & HH & Hp & He).
  - apply reachable_final_state; vm_compute; reflexivity.
  - vm_compute. reflexivity.
  - vm_compute. reflexivity.
  - vm_compute. reflexivity.
  - vm_compute. reflexivity.
  - vm_compute. reflexivity.
  - exists s'. split; [exact HH|]. rewrite Hp, He.
    split; vm_compute; reflexivity.
Defined.

(** After [visA] and then [visB] were clicked without Control, the box of
    entity 3 is hidden and entity 3 is not selected. *)
Lemma wire_boxes_mirror_the_selection_witness :
  ∃ wb p,
    wireBoxes
      (dataPtr (final_state 0 (click_visA_then_visB
                                 ++ [(plain, events.Render)]))) !! 3
    = Some wb ∧
    Parent wb = Some p ∧
    InheritScale p = false ∧
    VisMaterial p = "highlight_material"%string ∧
    (Visible p = true ↔
     3 ∈ selected_now (final_state 0 (click_visA_then_visB
                                        ++ [(plain, events.Render)]))).
Proof.
  assert (Hwb : ∃ wb,
            wireBoxes
              (dataPtr (final_state 0 (click_visA_then_visB
                                         ++ [(plain, events.Render)]))) !! 3
            = Some wb).
  { vm_compute. eexists. reflexivity. }
  destruct Hwb as [wb Hwb].
  destruct (wire_boxes_mirror_the_selection 0
              (final_state 0 (click_visA_then_visB ++ [(plain, events.Render)]))
              (reachable_final_state
                 (click_visA_then_visB ++ [(plain, events.Render)]) eq_refl
                 ltac:(vm_compute; reflexivity))
              3 wb Hwb) as (p & Hp & Hi & Hm & Hv).
  exists wb, p. auto.
Defined.

(** After the Control-clicks on both visuals the last event carries
    [7; 8]. *)
Lemma last_event_announces_the_selection_witness :
  announced_selection (effects (final_state 0 ctrl_click_both)) = [7; 8].
Proof.
  rewrite (proj1 (last_event_announces_the_selection 0
                    (final_state 0 ctrl_click_both)
                    (reachable_final_state ctrl_click_both eq_refl
                       ltac:(vm_compute; reflexivity)))).
  vm_compute. reflexivity.
Defined.

(** After a click on empty space the helper holds no request. *)
Lemma selection_helper_never_holds_a_request_witness :
  deselectAll (selectionHelper
                 (dataPtr (final_state 0 (click_visA_then_nothing
                                            ++ [(plain, events.Render)]))))
  = false.
Proof.
  apply (selection_helper_never_holds_a_request 0).
  apply reachable_final_state; vm_compute; reflexivity.
Defined.

(** With the scene and its camera at hand, the render pass after a click
    on the grid throws; without a scene, the render pass after a click
    dereferences null. *)
Lemma eventFilter_faults_exactly_when_witness :
  camera_in_use grid_world (final_state 0 click_grid_pending)
  = Some user_camera ∧
  eventFilter 0 grid_world events.Render (final_state 0 click_grid_pending)
  = Faulted bad_variant_access ∧
  eventFilter 0 no_engine events.Render
    (final_state 0 click_pending_without_scene)
  = Faulted NullDereference.
Proof.
  split; [vm_compute; reflexivity|]. split.
  - apply (proj2 (eventFilter_faults_exactly_when 0 grid_world events.Render
                    (final_state 0 click_grid_pending)
                    bad_variant_access
                    (reachable_final_state click_grid_pending eq_refl
                       ltac:(vm_compute; reflexivity))
                    ltac:(intros _; vm_compute; discriminate))).
    split; [reflexivity|]. split; [vm_compute; reflexivity|].
    vm_compute. split; reflexivity.
  - apply (proj2 (eventFilter_faults_exactly_when 0 no_engine events.Render
                    (final_state 0 click_pending_without_scene)
                    NullDereference
                    (reachable_final_state click_pending_without_scene eq_refl
                       ltac:(vm_compute; reflexivity))
                    ltac:(intros H; exfalso; apply H; vm_compute; reflexivity))).
    split; [reflexivity|]. split; vm_compute; reflexivity.
Defined.

(** Of two clicks without a render pass, the second is the one kept. *)
Lemma between_render_passes_the_last_click_counts_witness :
  ∃ s', run 0 clicks_without_render (initial 0) = Normal tt s' ∧
        mouseEvent (dataPtr s') = {| events.Pos := (2, 0) |} ∧
        mouseDirty (dataPtr s') = true ∧
        transformControlActive (dataPtr s') = true ∧
        effects s' = [].
Proof.
  destruct (between_render_passes_the_last_click_counts 0
              clicks_without_render (initial 0) eq_refl)
    as (s' & Hrun & _ & _ & _ & _ & _ & He & Hme & Hmd & Htc).
  exists s'. split; [exact Hrun|]. rewrite Hme, Hmd, Htc, He.
  repeat split.
Defined.

(** Highlighting and lowlighting [visA] in the scene without boxes. *)
Lemma HighlightNode_then_LowlightNode_witness :
  ∃ s1 s2 wb2,
    HighlightNode 0 (Some visA) (final_state 0 [(plain, events.Render)])
    = Normal tt s1 ∧
    LowlightNode 0 (Some visA) s1 = Normal tt s2 ∧
    wireBoxes (dataPtr s2) !! 3 = Some wb2 ∧
    Box wb2 = unit_box ∧
    box_hidden wb2.
Proof.
  destruct (HighlightNode_then_LowlightNode 0
              (final_state 0 [(plain, events.Render)]) two_boxes visA 3)
    as (s1 & s2 & wb1 & wb2 & H1 & H2 & _ & Hw2 & _ & Hb2 & Hh2 & _).
  - vm_compute. reflexivity.
  - vm_compute. reflexivity.
  - exists s1, s2, wb2. repeat (split; [assumption|]). exact Hh2.
Defined.

(** The selection [7; 8] consists of the ids of [visA] and [visB]. *)
Lemma selected_identifiers_resolve_witness :
  selectedEntities (dataPtr (final_state 0 ctrl_click_both)) = [7; 8] ∧
  ∃ v i, VisualById two_boxes_highlighted 8 = Some v ∧
         Id v = 8 ∧
         UserData v "gazebo-entity" = v_int i ∧
         Entity_of_int i ≠ 0.
Proof.
  split; [vm_compute; reflexivity|].
  pose proof (selected_identifiers_resolve 0 (final_state 0 ctrl_click_both)
                (reachable_final_state ctrl_click_both eq_refl
                   ltac:(vm_compute; reflexivity))) as H.
  change (scene (dataPtr (final_state 0 ctrl_click_both)))
    with (Some two_boxes_highlighted) in H.
  cbv beta iota in H.
  destruct (H 8) as (_ & v & i & Hv & Hid & Hu & Hn & _).
  - change (selectedEntities (dataPtr (final_state 0 ctrl_click_both)))
      with [7; 8]. apply elem_of_cons. right. apply elem_of_cons. by left.
  - exists v, i. auto.
Defined.

(** After the click on [visA] the scene has the highlight material. *)
Lemma highlight_material_exists_with_boxes_witness :
  ∃ sc, scene (dataPtr (final_state 0 click_visA)) = Some sc ∧
        is_Some (Materials sc !! "highlight_material"%string).
Proof.
  apply (highlight_material_exists_with_boxes 0).
  - apply reachable_final_state; vm_compute; reflexivity.
  - intros H. apply (f_equal (λ m, m !! 3)) in H. vm_compute in H.
    discriminate.
Defined.

(** The box of entity 3, created on [visA], is still on [visA] after
    [visB] was selected in its place. *)
Lemma wire_boxes_stay_attached_witness :
  ∃ w w',
    wireBoxes (dataPtr (final_state 0 click_visA)) !! 3 = Some w ∧
    wireBoxes
      (dataPtr (final_state 0 (click_visA_then_visB
                                 ++ [(plain, events.Render)]))) !! 3
    = Some w' ∧
    same_attachment w w'.
Proof.
  assert (Hw : ∃ w,
            wireBoxes (dataPtr (final_state 0 click_visA)) !! 3 = Some w).
  { vm_compute. eexists. reflexivity. }
  destruct Hw as [w Hw].
  destruct (wire_boxes_stay_attached 0
              [(plain, click_at 2); (plain, events.Render)]
              (final_state 0 click_visA)
              (final_state 0 (click_visA_then_visB
                                ++ [(plain, events.Render)]))
              ltac:(vm_compute; reflexivity) 3 w Hw) as (w' & Hw' & Ha).
  exists w, w'. auto.
Defined.

(** Deselecting twice after [visA] was selected sends the event twice. *)
Lemma DeselectAllEntities_twice_witness :
  ∃ s1,
    DeselectAllEntities 0 (final_state 0 click_visA) = Normal tt s1 ∧
    DeselectAllEntities 0 s1 =
      Normal tt
        {| dataPtr := dataPtr s1;
           effects := effects s1
                        ++ [App_sendEvent (events.DeselectAllEntities true)] |}.
Proof.
  assert (H1 : ∃ s1,
            DeselectAllEntities 0 (final_state 0 click_visA) = Normal tt s1).
  { vm_compute. eexists. reflexivity. }
  destruct H1 as [s1 H1]. exists s1. split; [exact H1|].
  apply (DeselectAllEntities_twice 0 (final_state 0 click_visA) s1
           two_boxes_highlighted); [vm_compute; reflexivity|exact H1].
Defined.
